(** * Duplex proxy relays of the Backend.AI client: a shallow embedding

    The development follows [ai/backend/client/cli/proxy.py] (the gateway
    proxy: [WebSocketProxy], [web_handler], [websocket_handler]) and
    [ai/backend/client/cli/app.py] (the local proxy: [WSProxy],
    [ProxyRunner.handle_connection]).

    The coroutines of the source run on one asyncio event loop: a coroutine
    runs without interruption from one [await] to the next.  Each relay is
    therefore modelled as a transition system whose state records where
    every coroutine is suspended and what each connection has seen so far;
    an event is the resolution of one pending [await] by the environment
    (a message arrives, a read returns, a cancellation is delivered).  The
    step functions are executable: [None] means that the event is not
    enabled in the state (no coroutine is waiting for it). *)

From stdpp Require Import list.
From Stdlib Require Import ZArith Bool.
From Stdlib Require Import Strings.String Strings.Ascii Strings.Byte.
From Stdlib Require Import DecimalString.
Import ListNotations.

Local Open Scope Z_scope.

(** ** Python values and exceptions *)

Module Py.

Definition bytes := list byte.

(** The dynamically typed payloads the two modules handle.  A [str] is
    kept as the string of its UTF-8 code units. *)
Inductive value :=
| Bytes (b : bytes)
| Str (s : string)
| Int (z : Z)
| Exc (name : string)
| NoneV.

(** Exceptions that the modelled code raises, catches or lets through.
    [BackendAPIError] and [BackendClientError] come from [..exceptions],
    [ClientConnectorError] and [ClientResponseError] from aiohttp. *)
Inductive exn :=
| CancelledError
| BackendAPIError (status : Z) (reason : string) (data : value)
| BackendClientError
| ClientConnectorError
| ClientResponseError (status : Z) (message : string)
| AttributeError
| UnicodeDecodeError
| OtherException (name : string)
| KeyboardInterrupt.

(** [isinstance(e, Exception)]: what a clause [except Exception] catches.
    [KeyboardInterrupt] derives from [BaseException] only.  The handlers
    below test [CancelledError] in a clause of its own, placed before the
    clause for [Exception]. *)
Definition is_Exception (e : exn) : bool :=
  match e with
  | KeyboardInterrupt => false
  | _ => true
  end.

Definition cont_byte (b : byte) : bool :=
  let n := Byte.to_N b in ((128 <=? n) && (n <=? 191))%N.

Definition in_range (lo hi : N) (b : byte) : bool :=
  let n := Byte.to_N b in ((lo <=? n) && (n <=? hi))%N.

(** Well-formed UTF-8 (shortest form, no surrogates, at most U+10FFFF):
    the inputs on which [bytes.decode('utf8')] succeeds. *)
Fixpoint utf8_valid (l : bytes) : bool :=
  match l with
  | [] => true
  | b0 :: t =>
      if in_range 0 127 b0 then utf8_valid t
      else if in_range 194 223 b0 then
        match t with
        | b1 :: t1 => cont_byte b1 && utf8_valid t1
        | _ => false
        end
      else if in_range 224 239 b0 then
        match t with
        | b1 :: b2 :: t2 =>
            (if in_range 224 224 b0 then in_range 160 191 b1
             else if in_range 237 237 b0 then in_range 128 159 b1
             else cont_byte b1)
            && cont_byte b2 && utf8_valid t2
        | _ => false
        end
      else if in_range 240 244 b0 then
        match t with
        | b1 :: b2 :: b3 :: t3 =>
            (if in_range 240 240 b0 then in_range 144 191 b1
             else if in_range 244 244 b0 then in_range 128 143 b1
             else cont_byte b1)
            && cont_byte b2 && cont_byte b3 && utf8_valid t3
        | _ => false
        end
      else false
  end.

(** [v.decode('utf8')]: only [bytes] has the method. *)
Definition decode_utf8 (v : value) : exn + string :=
  match v with
  | Bytes b =>
      if utf8_valid b then inr (string_of_list_byte b)
      else inl UnicodeDecodeError
  | _ => inl AttributeError
  end.

(** [s.encode()] *)
Definition encode (s : string) : bytes := list_byte_of_string s.

End Py.

(** ** aiohttp messages *)

Module Aiohttp.

Inductive WSMsgType :=
| CONTINUATION | TEXT | BINARY | PING | PONG
| CLOSE | CLOSING | CLOSED | ERROR.

(** The types of the frames that carry a payload to relay. *)
Definition is_data (t : WSMsgType) : bool :=
  match t with
  | TEXT | BINARY => true
  | _ => false
  end.

(** [WSMessage(type, data, extra)] *)
Record WSMessage := mkMsg {
  type : WSMsgType;
  data : Py.value;
  extra : Py.value
}.

(** [aiohttp.WSCloseCode.OK] *)
Definition WSCloseCode_OK : Z := 1000.

(** [v != aiohttp.WSCloseCode.OK]: the close code is an [IntEnum]
    member, so only an integer can be equal to it. *)
Definition ne_close_code_OK (v : Py.value) : bool :=
  match v with
  | Py.Int z => negb (z =? WSCloseCode_OK)
  | _ => true
  end.

(** A frame as handed to [send_str] (tag [TEXT]) or [send_bytes] (tag
    [BINARY]), payload first as in the tuples of the source. *)
Definition frame : Type := Py.value * WSMsgType.

(** Status of a task or coroutine. *)
Inductive task :=
| Running
| Finished (raised : option Py.exn).

Definition done (t : task) : bool :=
  match t with
  | Running => false
  | Finished _ => true
  end.

End Aiohttp.

Import Aiohttp.

(** ** The gateway proxy, [proxy.py] *)

(** Scope: [sent] lists the frames handed to [send_str] and [send_bytes],
    in call order; what aiohttp does with a frame handed to a connection
    that is already closed is not part of the source.  A send or a queue
    [put] completes within the step that calls it.  Console output
    ([print_info], [print_fail]) is left out: no peer sees it. *)

Module Gateway.

(** A [web.WebSocketResponse] / client websocket as the relay sees it:
    the [closed] flag, the frames sent through it, and the arguments of
    the [close] call that closed it, if any. *)
Record conn := mkConn {
  closed : bool;
  sent : list frame;
  close_args : option (option (Z * string))
}.

Definition new_conn : conn := mkConn false [] None.

Definition conn_send (f : frame) (c : conn) : conn :=
  mkConn (closed c) (sent c ++ [f]) (close_args c).

(** [await c.close(...)]; closing twice leaves the first close. *)
Definition conn_close (args : option (Z * string)) (c : conn) : conn :=
  if closed c then c else mkConn true (sent c) (Some args).

(** The remote end closes: [closed] becomes true without a local call. *)
Definition conn_peer_closed (c : conn) : conn :=
  mkConn true (sent c) (close_args c).

(** [WebSocketProxy] together with the state of its three coroutines.
    [upstream_co] is the coroutine [upstream()] that [proxy()] awaits,
    [downstream_task] the task started with [ensure_future]. *)
Record state := mkState {
  up_conn : conn;
  down_conn : conn;
  upstream_buffer : list frame;
  upstream_buffer_task : task;
  upstream_co : task;
  downstream_task : task
}.

(** [proxy()] up to the first suspension of every coroutine: the task
    [downstream()] has started the consumer and waits for [up_conn],
    [upstream()] waits for [down_conn], the queue is empty. *)
Definition proxy_start : state :=
  mkState new_conn new_conn [] Running Running Running.

(** [proxy()] returns when the awaited [upstream()] does. *)
Definition proxy_returned (s : state) : bool := done (upstream_co s).

Definition proxy_raised (s : state) : option Py.exn :=
  match upstream_co s with
  | Finished r => r
  | Running => None
  end.

(** [send(msg, tp)]: [await self.upstream_buffer.put((msg, tp))] on an
    unbounded queue. *)
Definition send (msg : Py.value) (tp : WSMsgType) (s : state) : state :=
  mkState (up_conn s) (down_conn s) (upstream_buffer s ++ [(msg, tp)])
          (upstream_buffer_task s) (upstream_co s) (downstream_task s).

Definition close_downstream (s : state) : state :=
  mkState (up_conn s)
          (if negb (closed (down_conn s))
           then conn_close None (down_conn s) else down_conn s)
          (upstream_buffer s) (upstream_buffer_task s)
          (upstream_co s) (downstream_task s).

(** [close_upstream()]: the consumer is cancelled (it swallows the
    [CancelledError] and ends), then [up_conn] is closed. *)
Definition close_upstream (s : state) : state :=
  mkState (if negb (closed (up_conn s))
           then conn_close None (up_conn s) else up_conn s)
          (down_conn s) (upstream_buffer s)
          (if negb (done (upstream_buffer_task s))
           then Finished None else upstream_buffer_task s)
          (upstream_co s) (downstream_task s).

Definition set_upstream_co (t : task) (s : state) : state :=
  mkState (up_conn s) (down_conn s) (upstream_buffer s)
          (upstream_buffer_task s) t (downstream_task s).

Definition set_downstream_task (t : task) (s : state) : state :=
  mkState (up_conn s) (down_conn s) (upstream_buffer s)
          (upstream_buffer_task s) (upstream_co s) t.

Definition set_down_conn (c : conn) (s : state) : state :=
  mkState (up_conn s) c (upstream_buffer s)
          (upstream_buffer_task s) (upstream_co s) (downstream_task s).

Definition set_up_conn (c : conn) (s : state) : state :=
  mkState c (down_conn s) (upstream_buffer s)
          (upstream_buffer_task s) (upstream_co s) (downstream_task s).

(** Leaving [upstream()]: the [finally] clause, then the result. *)
Definition upstream_exit (r : option Py.exn) (s : state) : state :=
  set_upstream_co (Finished r) (close_downstream s).

(** One turn of the loop of [upstream()] on a message of [down_conn]. *)
Definition upstream_msg (msg : WSMessage) (s : state) : state :=
  match type msg with
  | TEXT | BINARY => send (data msg) (type msg) s
  | ERROR => upstream_exit None s
  | CLOSE => upstream_exit None s
  | _ => s
  end.

(** An exception raised at the [async for] of [upstream()]. *)
Definition upstream_raise (e : Py.exn) (s : state) : state :=
  match e with
  | Py.CancelledError => upstream_exit None s
  | _ => upstream_exit (Some e) s
  end.

(** Leaving [downstream()]: the [finally] clause, then the result. *)
Definition downstream_exit (r : option Py.exn) (s : state) : state :=
  set_downstream_task (Finished r) (close_upstream s).

(** One turn of the loop of [downstream()] on a message of [up_conn]. *)
Definition downstream_msg (msg : WSMessage) (s : state) : state :=
  match type msg with
  | TEXT => set_down_conn (conn_send (data msg, TEXT) (down_conn s)) s
  | BINARY => set_down_conn (conn_send (data msg, BINARY) (down_conn s)) s
  | CLOSED => downstream_exit None s
  | ERROR => downstream_exit None s
  | _ => s
  end.

(** An exception raised at the [async for] of [downstream()]. *)
Definition downstream_raise (e : Py.exn) (s : state) : state :=
  match e with
  | Py.ClientConnectorError =>
      downstream_exit None
        (set_down_conn
           (conn_close (Some (503, "Connection failed"%string))
                       (down_conn s)) s)
  | Py.ClientResponseError status message =>
      downstream_exit None
        (set_down_conn
           (conn_close (Some (status, message)) (down_conn s)) s)
  | Py.CancelledError => downstream_exit None s
  | _ => downstream_exit (Some e) s
  end.

(** One turn of [consume_upstream_buffer()] on the frame that
    [upstream_buffer.get()] returns. *)
Definition consume (f : frame) (s : state) : state :=
  let '(data, tp) := f in
  if negb (closed (up_conn s)) then
    match tp with
    | BINARY => set_up_conn (conn_send (data, BINARY) (up_conn s)) s
    | TEXT => set_up_conn (conn_send (data, TEXT) (up_conn s)) s
    | _ => s
    end
  else s.

Definition set_upstream_buffer (q : list frame) (s : state) : state :=
  mkState (up_conn s) (down_conn s) q
          (upstream_buffer_task s) (upstream_co s) (downstream_task s).

Inductive event :=
| DownMsg (msg : WSMessage)   (* [down_conn] yields [msg] to [upstream()] *)
| DownEnd                     (* the iteration over [down_conn] ends *)
| DownRaise (e : Py.exn)      (* [e] is raised into [upstream()] *)
| UpMsg (msg : WSMessage)     (* [up_conn] yields [msg] to [downstream()] *)
| UpEnd                       (* the iteration over [up_conn] ends *)
| UpRaise (e : Py.exn)        (* [e] is raised into [downstream()] *)
| Get                         (* [upstream_buffer.get()] returns *)
| UpPeerClosed.               (* the remote end closes [up_conn] *)

Definition step (s : state) (ev : event) : option state :=
  match ev with
  | DownMsg msg =>
      if done (upstream_co s) then None else Some (upstream_msg msg s)
  | DownEnd =>
      if done (upstream_co s) then None else Some (upstream_exit None s)
  | DownRaise e =>
      if done (upstream_co s) then None else Some (upstream_raise e s)
  | UpMsg msg =>
      if done (downstream_task s) then None
      else Some (downstream_msg msg s)
  | UpEnd =>
      if done (downstream_task s) then None
      else Some (downstream_exit None s)
  | UpRaise e =>
      if done (downstream_task s) then None
      else Some (downstream_raise e s)
  | Get =>
      if done (upstream_buffer_task s) then None
      else match upstream_buffer s with
           | [] => None
           | f :: q => Some (consume f (set_upstream_buffer q s))
           end
  | UpPeerClosed => Some (set_up_conn (conn_peer_closed (up_conn s)) s)
  end.

Fixpoint run (s : state) (evs : list event) : option state :=
  match evs with
  | [] => Some s
  | ev :: evs' =>
      match step s ev with
      | Some s' => run s' evs'
      | None => None
      end
  end.

(** *** The HTTP handlers *)

(** The upstream response of [api_rqst.fetch()]: status line, headers,
    and the results of the successive calls [up_resp.aread(8192)] (a
    chunk, or an exception raised by the read); after the last listed
    result the body is at its end and [aread] returns [b'']. *)
Record up_response := mkUpResp {
  status : Z;
  reason : string;
  headers : list (string * string);
  chunks : list (Py.exn + Py.bytes)
}.

(** What a handler hands back to the HTTP layer: the streamed response
    [down_resp], a [web.Response], the websocket [down_conn] (with the
    state of the relay), or an exception that leaves the handler. *)
Inductive http_result :=
| StreamResponse (status : Z) (reason : string)
                 (headers : list (string * string)) (body : list Py.bytes)
| Response (body : Py.value) (status : Z) (reason : string)
| WebSocketResponse (s : state)
| Reraised (e : Py.exn).

(** The ASCII lower case of a header name (a field name is a token of
    ASCII characters); [CIMultiDict] compares names without regard to
    case. *)
Definition lower (c : ascii) : ascii :=
  let n := nat_of_ascii c in
  if ((65 <=? n) && (n <=? 90))%nat then ascii_of_nat (n + 32) else c.

Fixpoint lower_name (s : string) : string :=
  match s with
  | EmptyString => EmptyString
  | String c s' => String (lower c) (lower_name s')
  end.

Definition same_name (a b : string) : bool :=
  String.eqb (lower_name a) (lower_name b).

(** [headers[k] = v] on a [CIMultiDict]: the first entry of that name is
    replaced where it stands and the later ones are removed; without such
    an entry the new one is appended. *)
Fixpoint set_header (k v : string) (h : list (string * string))
  : list (string * string) :=
  match h with
  | [] => [(k, v)]
  | kv :: h' =>
      if same_name (fst kv) k then
        (k, v) :: List.filter (fun kv' => negb (same_name (fst kv') k)) h'
      else kv :: set_header k v h'
  end.

(** What [web.Response] accepts as [body]: [None], [bytes] or [str]. *)
Definition is_body (v : Py.value) : bool :=
  match v with
  | Py.Bytes _ | Py.Str _ | Py.NoneV => true
  | _ => false
  end.

(** [return web.Response(body=..., status=..., reason=...)] inside an
    [except] clause: for a body of another type the constructor raises
    [ValueError], which leaves the handler. *)
Definition web_Response (body : Py.value) (status : Z) (reason : string)
  : http_result :=
  if is_body body then Response body status reason
  else Reraised (Py.OtherException "ValueError").

(** The read loop of [web_handler]; [body] is what [down_resp.write]
    has received so far. *)
Fixpoint stream_body (chunks : list (Py.exn + Py.bytes))
                     (body : list Py.bytes) : Py.exn + list Py.bytes :=
  match chunks with
  | [] => inr body
  | inl e :: _ => inl e
  | inr [] :: _ => inr body
  | inr chunk :: rest => stream_body rest (body ++ [chunk])
  end.

(** The [try] block of [web_handler]. *)
Definition web_try (fetch : Py.exn + up_response) : Py.exn + http_result :=
  match fetch with
  | inl e => inl e
  | inr up_resp =>
      match stream_body (chunks up_resp) [] with
      | inl e => inl e
      | inr body =>
          inr (StreamResponse
                 (status up_resp) (reason up_resp)
                 (set_header "Access-Control-Allow-Origin" "*"
                             (headers up_resp))
                 body)
      end
  end.

Definition web_handler (fetch : Py.exn + up_response) : http_result :=
  match web_try fetch with
  | inr down_resp => down_resp
  | inl e =>
      match e with
      | Py.BackendAPIError e_status e_reason e_data =>
          web_Response e_data e_status e_reason
      | Py.BackendClientError =>
          Response (Py.Str "The proxy target server is inaccessible.")
                   502 "Bad Gateway"
      | Py.CancelledError =>
          Response (Py.Str "The proxy is being shut down.")
                   503 "Service Unavailable"
      | _ =>
          if Py.is_Exception e then
            Response (Py.Str "Something has gone wrong.")
                     500 "Internal Server Error"
          else Reraised e
      end
  end.

(** The [try] block of [websocket_handler]: [connect] is the outcome of
    [connect_websocket()], [evs] what happens during [proxy()].  The
    result is [None] as long as [proxy()] has not returned. *)
Definition websocket_try (connect : option Py.exn) (evs : list event)
  : option (Py.exn + http_result) :=
  match connect with
  | Some e => Some (inl e)
  | None =>
      match run proxy_start evs with
      | Some s =>
          match upstream_co s with
          | Finished (Some e) => Some (inl e)
          | Finished None => Some (inr (WebSocketResponse s))
          | Running => None
          end
      | None => None
      end
  end.

Definition websocket_handler (connect : option Py.exn) (evs : list event)
  : option http_result :=
  match websocket_try connect evs with
  | None => None
  | Some (inr down_conn) => Some down_conn
  | Some (inl e) =>
      Some
        match e with
        | Py.BackendAPIError e_status e_reason e_data =>
            web_Response e_data e_status e_reason
        | Py.BackendClientError =>
            Response (Py.Str "The proxy target server is inaccessible.")
                     502 "Bad Gateway"
        | Py.CancelledError =>
            Response (Py.Str "The proxy is being shut down.")
                     503 "Service Unavailable"
        | _ =>
            if Py.is_Exception e then
              Response (Py.Str "Something has gone wrong.")
                       500 "Internal Server Error"
            else Reraised e
        end
  end.

(** *** Observations on a schedule *)

(** The frame a text or binary message is relayed as. *)
Definition frame_of (msg : WSMessage) : frame := (data msg, type msg).

(** The text and binary frames among [msgs], in order. *)
Definition data_frames (msgs : list WSMessage) : list frame :=
  List.map frame_of (List.filter (fun m => is_data (type m)) msgs).

(** The messages that [down_conn], resp. [up_conn], yields. *)
Definition down_msgs (evs : list event) : list WSMessage :=
  List.flat_map (fun ev => match ev with DownMsg m => [m] | _ => [] end) evs.

Definition up_msgs (evs : list event) : list WSMessage :=
  List.flat_map (fun ev => match ev with UpMsg m => [m] | _ => [] end) evs.

(** The frames that [upstream()] passes to [send], in order. *)
Definition enqueued (evs : list event) : list frame :=
  data_frames (down_msgs evs).



(** Events other than an exception (cancellation apart) raised into
    [upstream()]. *)
Definition benign (ev : event) : bool :=
  match ev with
  | DownRaise Py.CancelledError => true
  | DownRaise _ => false
  | _ => true
  end.


(** No exception is on its way out of [proxy()]. *)
Definition calm (s : state) : bool :=
  match upstream_co s with
  | Finished (Some _) => false
  | _ => true
  end.

(** [proxy()] has returned only if [down_conn] is closed. *)
Definition settled (s : state) : Prop :=
  proxy_returned s = true -> closed (down_conn s) = true.

(** A [close] call that carries a status code. *)
Definition closed_with_status (c : conn) : bool :=
  match close_args c with
  | Some (Some _) => true
  | _ => false
  end.

End Gateway.

(** ** The local proxy, [app.py] *)

(** Scope: [ws_sent] lists the chunks handed to [ws.send_bytes], in call
    order (the frame is handed over when the call is made; the [await]
    that follows is the suspension [AwaitSend]).  [writer.write] and
    [writer.drain] complete within the step that calls them.  An exception
    can be delivered to the body of [run()] while it reads or sends, and to
    [downstream()] while it waits for a message. *)

Module Local.

(** Where the body of [WSProxy.run] is suspended. *)
Inductive main_pc :=
| AwaitRead                       (* [await self.reader.read(BUFFER_SIZE)] *)
| AwaitSend                       (* [await ws.send_bytes(chunk)] *)
| AwaitDownTask (pending : option Py.exn)
                                  (* [await self.down_task], in [finally] *)
| Returned
| Raised (e : Py.exn).

(** The session: the frames handed to [ws.send_bytes], whether [ws] is
    closed, what [self.writer.write] has received, whether the writer is
    closed, and the two coroutines. *)
Record state := mkState {
  ws_sent : list Py.bytes;
  ws_closed : bool;
  written : list Py.value;
  writer_closed : bool;
  main : main_pc;
  down_task : task
}.

(** [run()] inside the [async with] block, after [ensure_future]: the
    task [downstream()] waits for a message of [ws], the body waits for
    the first read. *)
Definition run_start : state := mkState [] false [] false AwaitRead Running.

Definition crlf : string := String "013" (String "010" EmptyString).

Definition error_head : string :=
  ("HTTP/1.1 503 Service Unavailable" ++ crlf
   ++ "Connection: Closed" ++ crlf ++ crlf
   ++ "WebSocket reply: ")%string.

(** [write_error(msg)] up to [rsp.encode()]: the bytes to write, or the
    exception raised while building them. *)
Definition error_block (msg : WSMessage) : Py.exn + Py.bytes :=
  match Py.decode_utf8 (data msg) with
  | inl e => inl e
  | inr reply => inr (Py.encode (error_head ++ reply))
  end.

Definition writer_write (v : Py.value) (s : state) : state :=
  mkState (ws_sent s) (ws_closed s) (written s ++ [v]) (writer_closed s)
          (main s) (down_task s).

(** [write_error(msg)] *)
Definition write_error (msg : WSMessage) (s : state) : Py.exn + state :=
  match error_block msg with
  | inl e => inl e
  | inr rsp => inr (writer_write (Py.Bytes rsp) s)
  end.

(** Modelled from the spec: the context manager returned by
    [connect_websocket()] belongs to [..request], which is outside the
    sources at hand; leaving its [async with] block closes the upstream
    websocket ("runs the relay to completion, then closes both ends").
    [finish r] is the way out of [run()] with result [r]. *)
Definition finish (r : option Py.exn) (s : state) : state :=
  mkState (ws_sent s) true (written s) (writer_closed s)
          (match r with None => Returned | Some e => Raised e end)
          (down_task s).

(** The [finally] clause of the body of [run()]; [pending] is the
    exception on its way out of the [try] block, if any. *)
Definition main_finally (pending : option Py.exn) (s : state) : state :=
  if negb (done (down_task s)) then
    mkState (ws_sent s) (ws_closed s) (written s) (writer_closed s)
            (AwaitDownTask pending) (down_task s)
  else finish pending s.

(** [chunk = await self.reader.read(...)] returns. *)
Definition main_read (chunk : Py.bytes) (s : state) : state :=
  match chunk with
  | [] => main_finally None s
  | _ =>
      mkState (ws_sent s ++ [chunk]) (ws_closed s) (written s)
              (writer_closed s) AwaitSend (down_task s)
  end.

(** [await ws.send_bytes(chunk)] returns. *)
Definition main_sent (s : state) : state :=
  mkState (ws_sent s) (ws_closed s) (written s) (writer_closed s)
          AwaitRead (down_task s).

(** An exception raised at the pending [await] of the loop. *)
Definition main_raise (e : Py.exn) (s : state) : state :=
  match e with
  | Py.CancelledError => main_finally None s
  | _ => main_finally (Some e) s
  end.

(** The body resumes from [await self.down_task] once the task is done:
    the result of the task is the result of the [await]. *)
Definition wake_main (s : state) : state :=
  match main s, down_task s with
  | AwaitDownTask pending, Finished None => finish pending s
  | AwaitDownTask _, Finished (Some e) => finish (Some e) s
  | _, _ => s
  end.

(** Leaving [downstream()]: the [finally] clause closes the writer. *)
Definition downstream_exit (r : option Py.exn) (s : state) : state :=
  mkState (ws_sent s) (ws_closed s) (written s) true
          (main s) (Finished r).

(** One turn of the loop of [downstream()] on a message of [ws]. *)
Definition downstream_msg (msg : WSMessage) (s : state) : state :=
  match type msg with
  | ERROR =>
      match write_error msg s with
      | inr s' => downstream_exit None s'
      | inl e => downstream_exit (Some e) s
      end
  | CLOSE =>
      if ne_close_code_OK (data msg) then
        match write_error msg s with
        | inr s' => downstream_exit None s'
        | inl e => downstream_exit (Some e) s
        end
      else downstream_exit None s
  | BINARY => writer_write (data msg) s
  | _ => s
  end.

(** An exception raised at the [async for] of [downstream()]. *)
Definition downstream_raise (e : Py.exn) (s : state) : state :=
  match e with
  | Py.CancelledError => downstream_exit None s
  | _ => downstream_exit (Some e) s
  end.

Inductive event :=
| Read (chunk : Py.bytes)    (* [reader.read] returns [chunk] *)
| SendDone                   (* [ws.send_bytes] returns *)
| MainRaise (e : Py.exn)     (* [e] is raised into the loop of [run()] *)
| WsMsg (msg : WSMessage)    (* [ws] yields [msg] to [downstream()] *)
| WsEnd                      (* the iteration over [ws] ends *)
| DownRaise (e : Py.exn).    (* [e] is raised into [downstream()] *)

Definition step (s : state) (ev : event) : option state :=
  match ev with
  | Read chunk =>
      match main s with
      | AwaitRead => Some (main_read chunk s)
      | _ => None
      end
  | SendDone =>
      match main s with
      | AwaitSend => Some (main_sent s)
      | _ => None
      end
  | MainRaise e =>
      match main s with
      | AwaitRead | AwaitSend => Some (main_raise e s)
      | _ => None
      end
  | WsMsg msg =>
      if done (down_task s) then None
      else Some (wake_main (downstream_msg msg s))
  | WsEnd =>
      if done (down_task s) then None
      else Some (wake_main (downstream_exit None s))
  | DownRaise e =>
      if done (down_task s) then None
      else Some (wake_main (downstream_raise e s))
  end.

Fixpoint run (s : state) (evs : list event) : option state :=
  match evs with
  | [] => Some s
  | ev :: evs' =>
      match step s ev with
      | Some s' => run s' evs'
      | None => None
      end
  end.

(** [run()] has returned or raised. *)
Definition run_result (s : state) : option (option Py.exn) :=
  match main s with
  | Returned => Some None
  | Raised e => Some (Some e)
  | _ => None
  end.

(** What [ProxyRunner.handle_connection] leaves behind: what the local
    socket received, whether it was closed, what [print_error] printed,
    and the exception that leaves the handler, if any. *)
Record handled := mkHandled {
  socket_written : list Py.value;
  socket_closed : bool;
  printed : list Py.exn;
  reraised : option Py.exn
}.

(** The [except] clauses of [handle_connection]. *)
Definition handle_result (r : option Py.exn) (w : list Py.value)
                         (c : bool) : handled :=
  match r with
  | None => mkHandled w c [] None
  | Some Py.CancelledError => mkHandled w c [] None
  | Some e =>
      if Py.is_Exception e then mkHandled w c [e] None
      else mkHandled w c [] (Some e)
  end.

(** [handle_connection(reader, writer)]: [connect] is the outcome of
    entering [async with api_rqst.connect_websocket()]; when it raises,
    [run()] is left before [downstream()] is started and before the
    writer is used.  The result is [None] as long as [run()] has not
    returned. *)
Definition handle_connection (connect : option Py.exn) (evs : list event)
  : option handled :=
  match connect with
  | Some e => Some (handle_result (Some e) [] false)
  | None =>
      match run run_start evs with
      | Some s =>
          match run_result s with
          | Some r => Some (handle_result r (written s) (writer_closed s))
          | None => None
          end
      | None => None
      end
  end.

(** *** Observations on a schedule *)

(** The chunks that [reader.read] returns, and the messages that [ws]
    yields. *)
Definition chunks_read (evs : list event) : list Py.bytes :=
  List.flat_map (fun ev => match ev with Read c => [c] | _ => [] end) evs.

Definition ws_msgs (evs : list event) : list WSMessage :=
  List.flat_map (fun ev => match ev with WsMsg m => [m] | _ => [] end) evs.

Definition nonempty (c : Py.bytes) : bool :=
  match c with
  | [] => false
  | _ => true
  end.

Definition is_binary (msg : WSMessage) : bool :=
  match type msg with
  | BINARY => true
  | _ => false
  end.

(** The upload loop is suspended at one of its two [await]s. *)
Definition uploading (s : state) : bool :=
  match main s with
  | AwaitRead | AwaitSend => true
  | _ => false
  end.

(** Events of an ordinary session: data, end of stream, a close frame
    with the OK code, cancellation.  Excluded are the exceptions raised
    into a coroutine and the frames that make [downstream()] call
    [write_error]. *)
Definition benign (ev : event) : bool :=
  match ev with
  | MainRaise Py.CancelledError | DownRaise Py.CancelledError => true
  | MainRaise _ | DownRaise _ => false
  | WsMsg msg =>
      match type msg with
      | ERROR => false
      | CLOSE => negb (ne_close_code_OK (data msg))
      | _ => true
      end
  | _ => true
  end.

(** The writer is closed once [downstream()] is done, and [run()] is
    left only with the task done and [ws] closed. *)
Definition settled (s : state) : Prop :=
  (done (down_task s) = true -> writer_closed s = true)
  /\ (run_result s <> None ->
      done (down_task s) = true /\ ws_closed s = true).

(** No exception is on its way out of [run()] or of [downstream()]. *)
Definition calm (s : state) : bool :=
  match main s with
  | Raised _ | AwaitDownTask (Some _) => false
  | _ => true
  end
  && match down_task s with
     | Finished (Some _) => false
     | _ => true
     end.

End Local.

(** ** Request paths *)

Module Paths.

(** A [str] as the list of its code points. *)
Definition text := list N.

(** The code points of an ASCII literal. *)
Fixpoint codes (s : string) : text :=
  match s with
  | EmptyString => []
  | String c s' => N_of_ascii c :: codes s'
  end.

Definition slash : N := 47.
Definition letter_v : N := 118.

(** [WSProxy.__init__]:
    [f"/stream/kernel/{session_id}/{protocol}proxy"] *)
Definition ws_path (session_id protocol : text) : text :=
  codes "/stream/kernel/" ++ session_id ++ codes "/" ++ protocol
  ++ codes "proxy".

(** The protocol that [app()] passes to [ProxyRunner]. *)
Definition app_protocol : text := codes "http".

Section Version.

(** The class [\d] of a [str] pattern is the Unicode category Nd.  Below
    U+0080 it consists of the ten ASCII digits; the rest of the table
    belongs to the [re] module and is a parameter here. *)
Variable unicode_digit : N -> bool.

Definition is_digit (c : N) : bool :=
  if (c <? 128)%N then ((48 <=? c) && (c <=? 57))%N else unicode_digit c.

(** The greedy [\d*]: what is left after the leading digits. *)
Fixpoint skip_digits (p : text) : text :=
  match p with
  | c :: p' => if is_digit c then skip_digits p' else p
  | [] => []
  end.

(** [v(\d+)/] matched at the head of [p]: the text after the match.  The
    digits are followed by a slash, so giving back digits never helps and
    the greedy match is the only candidate. *)
Definition match_version (p : text) : option text :=
  match p with
  | v :: c :: p' =>
      if (v =? letter_v)%N && is_digit c then
        match skip_digits p' with
        | c' :: rest => if (c' =? slash)%N then Some rest else None
        | [] => None
        end
      else None
  | _ => None
  end.

(** [re.sub(r'^/?v(\d+)/', '/', path)]: the pattern is anchored at the
    start of the path, so at most one match is replaced; [/?] first
    takes a leading slash and gives it back if the rest does not match. *)
Definition strip_version (path : text) : text :=
  match
    match path with
    | c :: p' => if (c =? slash)%N then match_version p' else None
    | [] => None
    end
  with
  | Some rest => slash :: rest
  | None =>
      match match_version path with
      | Some rest => slash :: rest
      | None => path
      end
  end.

End Version.

End Paths.

(** ** Further observations on schedules *)

Module Sessions.

(** A message that lets the loop of [downstream()] in [app.py] go on. *)
Definition keeps_streaming (msg : WSMessage) : bool :=
  match type msg with
  | ERROR | CLOSE => false
  | _ => true
  end.

(** The exceptions for which [downstream()] in [proxy.py] closes
    [down_conn] with a status code. *)
Definition upstream_failure (ev : Gateway.event) : bool :=
  match ev with
  | Gateway.UpRaise Py.ClientConnectorError => true
  | Gateway.UpRaise (Py.ClientResponseError _ _) => true
  | _ => false
  end.

(** Both coroutines of the gateway relay are done. *)
Definition torn_down (s : Gateway.state) : Prop :=
  done (Gateway.upstream_buffer_task s) = true
  /\ Gateway.closed (Gateway.up_conn s) = true
  /\ Gateway.closed (Gateway.down_conn s) = true.

(** [downstream()] has ended only with the consumer stopped and
    [up_conn] closed. *)
Definition download_cleaned (s : Gateway.state) : Prop :=
  done (Gateway.downstream_task s) = true ->
  done (Gateway.upstream_buffer_task s) = true
  /\ Gateway.closed (Gateway.up_conn s) = true.



End Sessions.

(** ** The command [run], [sorna/cli/run.py] *)

(** The kernel ([..kernel]), the terminal and the printing helpers
    ([.pretty]) are outside the module: each call to them is recorded as
    an action, and what they answer is given by a [world].  The kernel
    answers the successive calls of [execute] with the entries of
    [executions]; when the list is used up the call has been made and has
    not returned. *)

Module Run.

(** The part of a result of [kernel.execute] that [exec_loop] reads:
    the console records [(rec[0], rec[1])], the status, and the truth
    value of [result['options'].get('is_password', False)]. *)
Record result := mkResult {
  console : list (string * string);
  status : string;
  is_password : bool
}.

Inductive action :=
| Execute (code : option string) (mode : string)
| Stdout (text : string)
| Stderr (text : string)
| Flush
| ReadInput
| ReadPassword
| PrintInfo (msg : string)
| PrintWait (msg : string)
| PrintDone (msg : string)
| PrintFail (msg : string)
| GetOrCreate (lang token : string)
| Upload (files : list string)
| Destroy
| Traceback.

Inductive outcome :=
| Returned
| Raised (e : Py.exn)
| Pending.

Definition nl : string := String "010" EmptyString.
Definition dquote : string := String "034" EmptyString.

(** The body of [for rec in result['console']]. *)
Definition print_record (rec : string * string) : list action :=
  if String.eqb (fst rec) "stdout" then [Stdout (snd rec)]
  else if String.eqb (fst rec) "stderr" then [Stderr (snd rec)]
  else [Stdout ("----- output record (type: " ++ fst rec ++ ") -----" ++ nl);
        Stdout (snd rec ++ nl);
        Stdout ("----- end of record -----" ++ nl)].

(** [getpass.getpass()] or [input()] *)
Definition ask (r : result) : action :=
  if is_password r then ReadPassword else ReadInput.

(** [exec_loop(kernel, code, mode)]: [inputs] are the lines that the
    terminal still has; at its end [input()] raises [EOFError]. *)
Fixpoint exec_loop (executions : list (Py.exn + result))
                   (inputs : list string)
                   (code : option string) (mode : string)
  : list action * outcome :=
  match executions with
  | [] => ([Execute code mode], Pending)
  | inl e :: _ => ([Execute code mode], Raised e)
  | inr r :: rest =>
      let shown :=
        Execute code mode :: List.flat_map print_record (console r)
        ++ [Flush] in
      if String.eqb (status r) "finished" then (shown, Returned)
      else if String.eqb (status r) "waiting-input" then
        match inputs with
        | [] => (shown ++ [ask r], Raised (Py.OtherException "EOFError"))
        | line :: inputs' =>
            let '(more, o) := exec_loop rest inputs' (Some line) mode in
            (shown ++ [ask r] ++ more, o)
        end
      else
        let '(more, o) := exec_loop rest inputs code mode in
        (shown ++ more, o)
  end.

(** The parsed arguments of the command. *)
Record args := mkArgs {
  lang : string;
  files : list string;
  client_token : option string;
  code : option string;
  quiet : bool
}.

(** What the collaborators answer: [token_hex(16)], the kernel id that
    [Kernel.get_or_create] returns, the response of [kernel.upload]
    (status, reason, text), the results of [kernel.execute], the lines of
    the terminal, and the exception of [kernel.destroy], if any. *)
Record world := mkWorld {
  fresh_token : string;
  created : Py.exn + string;
  uploaded : Py.exn + (Z * string * string);
  executions : list (Py.exn + result);
  stdin : list string;
  destroyed : option Py.exn
}.

(** Truth value of an optional [str]. *)
Definition truthy (s : option string) : bool :=
  match s with
  | Some (String _ _) => true
  | _ => false
  end.

(** [str(n)] *)
Definition str_of_int (n : Z) : string :=
  NilZero.string_of_int (Z.to_int n).

(** [vprint_*]: silent when [args.quiet]. *)
Definition verbose (a : args) (act : action) : list action :=
  if quiet a then [] else [act].

(** The [try] block of [run]. *)
Definition run_try (a : args) (w : world) : list action * outcome :=
  match files a with
  | _ :: _ =>
      if truthy (code a) then
        ([Stderr ("You can run only either source files or command-line "
                  ++ "code snippet." ++ nl)],
         Returned)
      else
        match uploaded w with
        | inl e =>
            (verbose a (PrintWait "Uploading source files...")
             ++ [Upload (files a)],
             Raised e)
        | inr (ret_status, ret_reason, ret_text) =>
            if negb (ret_status / 100 =? 2) then
              (verbose a (PrintWait "Uploading source files...")
               ++ [Upload (files a);
                   PrintFail "Uploading source files failed!";
                   Stdout (str_of_int ret_status ++ ": " ++ ret_reason
                           ++ nl ++ ret_text ++ nl)],
               Returned)
            else
              let '(tr, o) := exec_loop (executions w) (stdin w) None "batch"
              in
              (verbose a (PrintWait "Uploading source files...")
               ++ [Upload (files a)]
               ++ verbose a (PrintDone "Uploading done.") ++ tr,
               o)
        end
  | [] =>
      if negb (truthy (code a)) then
        ([Stderr ("You should provide the command-line code snippet using "
                  ++ dquote ++ "-c" ++ dquote
                  ++ " option if run without files." ++ nl)],
         Returned)
      else exec_loop (executions w) (stdin w) (code a) "query"
  end.

(** The [finally] clause of [run]. *)
Definition run_finally (a : args) (w : world) (attach_to_existing : bool)
  : list action * outcome :=
  if negb attach_to_existing then
    match destroyed w with
    | Some e =>
        (verbose a (PrintWait "Cleaning up the temporary kernel...")
         ++ [Destroy],
         Raised e)
    | None =>
        (verbose a (PrintWait "Cleaning up the temporary kernel...")
         ++ [Destroy] ++ verbose a (PrintDone "Cleaned up the kernel."),
         Returned)
    end
  else ([], Returned).

(** [run(args)] *)
Definition run (a : args) (w : world) : list action * outcome :=
  let attach_to_existing := truthy (client_token a) in
  let token :=
    match client_token a with
    | Some (String c t) => String c t
    | _ => fresh_token w
    end in
  let greeting :=
    verbose a (PrintInfo ("Client session token: " ++ token))
    ++ verbose a (PrintWait (if attach_to_existing
                             then "Connecting to the kernel..."
                             else "Creating a temporary kernel..."))
    ++ [GetOrCreate (lang a) token] in
  match created w with
  | inl e => (greeting, Raised e)
  | inr kernel_id =>
      let ready :=
        verbose a (PrintDone ("Kernel (ID: " ++ kernel_id ++ ") is ready."))
      in
      let '(body, o) := run_try a w in
      match o with
      | Pending => (greeting ++ ready ++ body, Pending)
      | _ =>
          let handled :=
            match o with
            | Raised _ => [PrintFail "Execution failed!"; Traceback]
            | _ => []
            end in
          let '(cleanup, o') := run_finally a w attach_to_existing in
          (greeting ++ ready ++ body ++ handled ++ cleanup, o')
      end
  end.

(** The calls made to the kernel for executing code. *)
Definition is_execute (act : action) : bool :=
  match act with
  | Execute _ _ => true
  | _ => false
  end.

Definition is_destroy (act : action) : bool :=
  match act with
  | Destroy => true
  | _ => false
  end.

(** The actions that [quiet] is meant to hide. *)
Definition is_detail (act : action) : bool :=
  match act with
  | PrintInfo _ | PrintWait _ | PrintDone _ => true
  | _ => false
  end.

(** The text sent to the standard output, resp. the standard error. *)
Definition stdout_of (tr : list action) : string :=
  String.concat "" (List.flat_map
                      (fun act => match act with
                                  | Stdout t => [t]
                                  | _ => []
                                  end) tr).

Definition modes_of (tr : list action) : list string :=
  List.flat_map (fun act => match act with
                            | Execute _ m => [m]
                            | _ => []
                            end) tr.

Definition is_upload (act : action) : bool :=
  match act with
  | Upload _ => true
  | _ => false
  end.

(** The actions of [exec_loop]: calls of [execute], output, input. *)
Definition is_loop_action (act : action) : bool :=
  match act with
  | Execute _ _ | Stdout _ | Stderr _ | Flush | ReadInput | ReadPassword =>
      true
  | _ => false
  end.


Definition not_finished (x : Py.exn + result) : bool :=
  match x with
  | inr r => negb (String.eqb (status r) "finished")
  | inl _ => false
  end.

End Run.

(** * Properties of the gateway relay *)

Section GatewayFacts.

Import Gateway.

Ltac gw_unfold :=
  unfold upstream_msg, upstream_raise, upstream_exit, downstream_msg,
    downstream_raise, downstream_exit, consume, send, close_downstream,
    close_upstream, set_upstream_co, set_downstream_task, set_down_conn,
    set_up_conn, set_upstream_buffer, conn_close, conn_send,
    conn_peer_closed in *.

Ltac gw_step H :=
  match type of H with
  | step _ ?ev = Some _ =>
      destruct ev as [msg| |e|msg| |e| | ]; cbn [step] in H
  end.

(** Case analysis on the guard of a step. *)
Ltac gw_enabled H :=
  try match type of H with
      | context [done ?t] => destruct (done t) eqn:?; [discriminate|]
      end;
  try match type of H with
      | context [upstream_buffer ?s] =>
          destruct (upstream_buffer s) as [|[d tp] q] eqn:?; [discriminate|]
      end;
  injection H as <-.

Lemma gw_run_cons s ev evs s2 :
  run s (ev :: evs) = Some s2 ->
  exists s1, step s ev = Some s1 /\ run s1 evs = Some s2.
Proof.
  cbn [run]. destruct (step s ev) as [s1|]; [|discriminate].
  intros H. exists s1. split; [reflexivity|exact H].
Qed.

Lemma data_frames_app l1 l2 :
  data_frames (l1 ++ l2) = data_frames l1 ++ data_frames l2.
Proof.
  unfold data_frames. rewrite List.filter_app, List.map_app. reflexivity.
Qed.

(** What one step adds to the frames handed to [down_conn]. *)
Lemma step_down_sent s ev s1 :
  step s ev = Some s1 ->
  sent (down_conn s1) = sent (down_conn s) ++ data_frames (up_msgs [ev]).
Proof.
  intros H. gw_step H; gw_enabled H;
    cbn [up_msgs List.flat_map data_frames app];
    rewrite ?app_nil_r; gw_unfold; cbn.
  - destruct (type msg); cbn; try reflexivity;
      destruct (closed (down_conn s)); reflexivity.
  - destruct (closed (down_conn s)); reflexivity.
  - destruct e; cbn; destruct (closed (down_conn s)); reflexivity.
  - unfold is_data, frame_of. destruct msg as [t d x]; cbn.
    destruct t; cbn; rewrite ?app_nil_r; reflexivity.
  - reflexivity.
  - destruct e; cbn; try reflexivity;
      destruct (closed (down_conn s)); reflexivity.
  - destruct (closed (up_conn s)); cbn; [reflexivity|].
    destruct tp; reflexivity.
  - reflexivity.
Qed.

Lemma gateway_download_relay s evs s2 :
  run s evs = Some s2 ->
  sent (down_conn s2) = sent (down_conn s) ++ data_frames (up_msgs evs).
Proof.
  revert s. induction evs as [|ev evs IH]; intros s H.
  - injection H as <-. cbn. rewrite app_nil_r. reflexivity.
  - apply gw_run_cons in H as (s1 & Hs & Hr).
    rewrite (IH _ Hr), (step_down_sent _ _ _ Hs).
    change (ev :: evs) with ([ev] ++ evs).
    unfold up_msgs. rewrite List.flat_map_app.
    fold (up_msgs [ev]) (up_msgs evs).
    rewrite data_frames_app, app_assoc. reflexivity.
Qed.

Lemma enqueued_app l1 l2 : enqueued (l1 ++ l2) = enqueued l1 ++ enqueued l2.
Proof.
  unfold enqueued, down_msgs.
  rewrite List.flat_map_app, data_frames_app. reflexivity.
Qed.






End GatewayFacts.

(** * Properties of the local relay *)

Section LocalFacts.

Import Local.

Ltac lc_unfold :=
  unfold wake_main, downstream_msg, downstream_raise, downstream_exit,
    write_error, writer_write, main_read, main_sent, main_raise,
    main_finally, finish in *.

Ltac lc_step H :=
  match type of H with
  | step _ ?ev = Some _ =>
      destruct ev as [chunk| |e|msg| |e]; cbn [step] in H
  end.

(** Case analysis on the guard of a step. *)
Ltac lc_enabled H :=
  try match type of H with
      | context [done ?t] => destruct (done t) eqn:?; [discriminate|]
      end;
  try match type of H with
      | context [main ?s] => destruct (main s) eqn:?; try discriminate
      end;
  injection H as <-.

Lemma lc_run_cons s ev evs s2 :
  run s (ev :: evs) = Some s2 ->
  exists s1, step s ev = Some s1 /\ run s1 evs = Some s2.
Proof.
  cbn [run]. destruct (step s ev) as [s1|]; [|discriminate].
  intros H. exists s1. split; [reflexivity|exact H].
Qed.

Lemma concat_filter_nonempty (l : list Py.bytes) :
  List.concat (List.filter nonempty l) = List.concat l.
Proof.
  induction l as [|c l IH]; [reflexivity|].
  destruct c as [|b c]; cbn; [exact IH|]. rewrite IH. reflexivity.
Qed.

(** Resuming the body of [run()] touches neither log nor the task. *)
Lemma wake_main_fields s :
  ws_sent (wake_main s) = ws_sent s
  /\ written (wake_main s) = written s
  /\ writer_closed (wake_main s) = writer_closed s
  /\ down_task (wake_main s) = down_task s.
Proof.
  destruct s as [a b c d m t]. unfold wake_main, finish. cbn.
  destruct m as [| |p| |]; try (repeat split; reflexivity).
  destruct t as [|[e|]]; repeat split; reflexivity.
Qed.

Lemma main_finally_fields p s :
  ws_sent (main_finally p s) = ws_sent s
  /\ written (main_finally p s) = written s
  /\ writer_closed (main_finally p s) = writer_closed s
  /\ down_task (main_finally p s) = down_task s.
Proof.
  destruct s as [a b c d m t]. unfold main_finally, finish. cbn.
  destruct (negb (done t)); repeat split; reflexivity.
Qed.

Lemma main_raise_fields e s :
  ws_sent (main_raise e s) = ws_sent s
  /\ written (main_raise e s) = written s
  /\ writer_closed (main_raise e s) = writer_closed s
  /\ down_task (main_raise e s) = down_task s.
Proof. unfold main_raise. destruct e; apply main_finally_fields. Qed.

Lemma downstream_msg_ws_sent msg s :
  ws_sent (downstream_msg msg s) = ws_sent s.
Proof.
  unfold downstream_msg, write_error, writer_write, downstream_exit.
  destruct (type msg); try reflexivity;
    try destruct (ne_close_code_OK (data msg)); try reflexivity;
    destruct (error_block msg); reflexivity.
Qed.

Lemma downstream_raise_ws_sent e s :
  ws_sent (downstream_raise e s) = ws_sent s.
Proof. destruct e; reflexivity. Qed.

(** Each read that returns data hands the chunk to [ws.send_bytes] in
    the same step; nothing else sends on [ws]. *)
Lemma step_ws_sent s ev s1 :
  step s ev = Some s1 ->
  ws_sent s1 = ws_sent s ++ List.filter nonempty (chunks_read [ev]).
Proof.
  intros H. lc_step H; lc_enabled H; cbn; rewrite ?app_nil_r;
    try apply main_raise_fields;
    try (rewrite (proj1 (wake_main_fields _));
         first [apply downstream_msg_ws_sent
               |apply downstream_raise_ws_sent
               |reflexivity]).
  - destruct chunk; cbn; rewrite ?app_nil_r; [|reflexivity].
    apply main_finally_fields.
  - reflexivity.
Qed.

Lemma run_ws_sent s evs s2 :
  run s evs = Some s2 ->
  ws_sent s2 = ws_sent s ++ List.filter nonempty (chunks_read evs).
Proof.
  revert s. induction evs as [|ev evs IH]; intros s H.
  - injection H as <-. cbn. rewrite app_nil_r. reflexivity.
  - apply lc_run_cons in H as (s1 & Hs & Hr).
    rewrite (IH _ Hr), (step_ws_sent _ _ _ Hs).
    change (ev :: evs) with ([ev] ++ evs). unfold chunks_read.
    rewrite List.flat_map_app, List.filter_app, app_assoc. reflexivity.
Qed.

Lemma downstream_raise_written e s :
  written (downstream_raise e s) = written s.
Proof. destruct e; reflexivity. Qed.

(** Of text and binary messages, [downstream()] writes the payload of
    the binary ones to the local socket and nothing for the others. *)
Lemma step_written_data s ev s1 :
  step s ev = Some s1 ->
  Forall (fun m => is_data (type m) = true) (ws_msgs [ev]) ->
  written s1
  = written s ++ List.map data (List.filter is_binary (ws_msgs [ev])).
Proof.
  intros H Hd. lc_step H; lc_enabled H; cbn; rewrite ?app_nil_r;
    try apply main_raise_fields;
    try (rewrite (proj1 (proj2 (wake_main_fields _)));
         first [apply downstream_raise_written|reflexivity]).
  - destruct chunk; cbn; [|reflexivity]. apply main_finally_fields.
  - reflexivity.
  - cbn in Hd. apply Forall_cons in Hd as [Hm _].
    rewrite (proj1 (proj2 (wake_main_fields _))).
    unfold downstream_msg, is_binary.
    destruct (type msg); try discriminate; cbn; rewrite ?app_nil_r;
      reflexivity.
Qed.

Lemma run_written_data s evs s2 :
  run s evs = Some s2 ->
  Forall (fun m => is_data (type m) = true) (ws_msgs evs) ->
  written s2
  = written s ++ List.map data (List.filter is_binary (ws_msgs evs)).
Proof.
  revert s. induction evs as [|ev evs IH]; intros s H Hd.
  - injection H as <-. cbn. rewrite app_nil_r. reflexivity.
  - apply lc_run_cons in H as (s1 & Hs & Hr).
    change (ev :: evs) with ([ev] ++ evs) in Hd |- *.
    unfold ws_msgs in Hd |- *. rewrite List.flat_map_app in Hd |- *.
    apply Forall_app in Hd as [Hd1 Hd2].
    rewrite (IH _ Hr Hd2), (step_written_data _ _ _ Hs Hd1).
    rewrite List.filter_app, List.map_app, app_assoc. reflexivity.
Qed.

(** While [ws.send_bytes] has not returned, no read is taken. *)
Lemma read_blocked_while_sending s chunk :
  main s = AwaitSend -> step s (Read chunk) = None.
Proof. intros H. cbn. rewrite H. reflexivity. Qed.

Lemma step_settled s ev s1 :
  step s ev = Some s1 -> settled s -> settled s1.
Proof.
  unfold settled, run_result. destruct s as [a b c d m t].
  intros H [Hw Hr]. cbn in Hw, Hr.
  assert (forall e, exists p,
             main_raise e (mkState a b c d m t)
             = main_finally p (mkState a b c d m t)) as Hp
    by (intros e; destruct e; eexists; reflexivity).
  lc_step H; cbn in H;
    [destruct m; try discriminate; injection H as <-
    |destruct m; try discriminate; injection H as <-
    |destruct (Hp e) as [p Hpe];
     destruct m; try discriminate; injection H as <-; rewrite Hpe
    |destruct t; [|discriminate]; injection H as <-
    |destruct t; [|discriminate]; injection H as <-
    |destruct t; [|discriminate]; injection H as <-; destruct e];
    unfold downstream_raise, downstream_msg, write_error, writer_write,
      downstream_exit, main_read, main_sent, main_finally, finish;
    cbn;
    try destruct chunk; try destruct (type msg); cbn;
    try destruct (ne_close_code_OK (data msg)); cbn;
    try destruct (error_block msg); cbn;
    try destruct t; try destruct p;
    unfold wake_main, finish; cbn;
    try destruct m as [| |[?|]| |]; cbn in *;
    (split;
     [intros; try reflexivity; auto
     |intros Hx;
      first [split; reflexivity
            |exfalso; apply Hx; reflexivity
            |destruct Hr as [Hr1 Hr2];
             [congruence
             |first [discriminate Hr1|split; [reflexivity|exact Hr2]]]]]).
Qed.

Lemma run_settled s evs s2 :
  run s evs = Some s2 -> settled s -> settled s2.
Proof.
  revert s. induction evs as [|ev evs IH]; intros s H Hs.
  - injection H as <-. exact Hs.
  - apply lc_run_cons in H as (s1 & Hst & Hr).
    exact (IH _ Hr (step_settled _ _ _ Hst Hs)).
Qed.

Lemma run_start_settled : settled run_start.
Proof. split; cbn; [discriminate|congruence]. Qed.

Lemma step_calm s ev s1 :
  step s ev = Some s1 -> benign ev = true -> calm s = true ->
  calm s1 = true.
Proof.
  unfold calm, benign. destruct s as [a b c d m t]. cbn.
  intros H Hb Hc.
  lc_step H; cbn in H;
    [destruct m; try discriminate; injection H as <-
    |destruct m; try discriminate; injection H as <-
    |destruct m; try discriminate; injection H as <-;
     destruct e; try discriminate
    |destruct t; [|discriminate]; injection H as <-
    |destruct t; [|discriminate]; injection H as <-
    |destruct t; [|discriminate]; injection H as <-;
     destruct e; try discriminate];
    unfold main_raise, downstream_raise, downstream_msg, write_error,
      writer_write, downstream_exit, main_read, main_sent, main_finally,
      finish;
    cbn;
    try destruct chunk; try destruct (type msg); try discriminate; cbn;
    try (destruct (ne_close_code_OK (data msg)); [discriminate|]); cbn;
    try destruct t as [|[?|]]; try discriminate;
    unfold wake_main, finish; cbn;
    try destruct m as [| |[?|]| |]; cbn in *;
    try discriminate; reflexivity.
Qed.

Lemma run_calm s evs s2 :
  run s evs = Some s2 -> forallb benign evs = true -> calm s = true ->
  calm s2 = true.
Proof.
  revert s. induction evs as [|ev evs IH]; intros s H Hb Hc.
  - injection H as <-. exact Hc.
  - apply lc_run_cons in H as (s1 & Hst & Hr).
    cbn in Hb. apply andb_true_iff in Hb as [Hb1 Hb2].
    exact (IH _ Hr Hb2 (step_calm _ _ _ Hst Hb1 Hc)).
Qed.

(** Cancelling both coroutines of a running session, in either order:
    [run()] returns, both ends are closed, nothing more is written or
    sent. *)
Lemma cancel_both s evs :
  uploading s = true -> down_task s = Running ->
  evs = [MainRaise Py.CancelledError; DownRaise Py.CancelledError]
  \/ evs = [DownRaise Py.CancelledError; MainRaise Py.CancelledError] ->
  exists s2,
    run s evs = Some s2
    /\ main s2 = Returned /\ down_task s2 = Finished None
    /\ ws_closed s2 = true /\ writer_closed s2 = true
    /\ written s2 = written s /\ ws_sent s2 = ws_sent s.
Proof.
  destruct s as [a b c d m t]. unfold uploading. cbn.
  intros Hm -> [->| ->];
    destruct m; try discriminate; cbn;
    eexists; (split; [reflexivity|]); cbn; repeat split; reflexivity.
Qed.

End LocalFacts.

(** * Shutdown of the gateway relay *)

Section GatewayShutdown.

Import Gateway.

Ltac gw_cases H :=
  match type of H with
  | step _ ?ev = Some _ =>
      destruct ev as [msg| |e|msg| |e| | ]; cbn [step] in H;
      try match type of H with
          | context [done ?t] => destruct (done t) eqn:?; [discriminate|]
          end;
      try match type of H with
          | context [upstream_buffer ?s] =>
              destruct (upstream_buffer s) as [|[d tp] q] eqn:?;
              [discriminate|]
          end;
      injection H as <-
  end.

Lemma gw_step_settled s ev s1 :
  step s ev = Some s1 -> settled s -> settled s1.
Proof.
  unfold settled, proxy_returned. destruct s as [u dn bq bt uc dt].
  cbn. intros H Hs. gw_cases H; cbn in *;
    unfold upstream_msg, upstream_raise, upstream_exit, downstream_msg,
      downstream_raise, downstream_exit, consume, send, close_downstream,
      close_upstream, set_upstream_co, set_downstream_task,
      set_down_conn, set_up_conn, set_upstream_buffer, conn_close,
      conn_send, conn_peer_closed; cbn;
    try destruct (type msg); try destruct e; try destruct tp; cbn;
    try destruct (closed u); cbn;
    try destruct (closed dn) eqn:Hdn; cbn; auto; congruence.
Qed.

Lemma gw_run_settled s evs s2 :
  run s evs = Some s2 -> settled s -> settled s2.
Proof.
  revert s. induction evs as [|ev evs IH]; intros s H Hs.
  - injection H as <-. exact Hs.
  - cbn in H. destruct (step s ev) as [s1|] eqn:Hst; [|discriminate].
    exact (IH _ H (gw_step_settled _ _ _ Hst Hs)).
Qed.

Lemma gw_step_calm s ev s1 :
  step s ev = Some s1 -> benign ev = true -> calm s = true ->
  calm s1 = true.
Proof.
  unfold calm, benign. destruct s as [u dn bq bt uc dt].
  cbn. intros H Hb Hc. gw_cases H; cbn in *;
    unfold upstream_msg, upstream_raise, upstream_exit, downstream_msg,
      downstream_raise, downstream_exit, consume, send, close_downstream,
      close_upstream, set_upstream_co, set_downstream_task,
      set_down_conn, set_up_conn, set_upstream_buffer; cbn;
    try destruct (type msg); try destruct e; try destruct tp; cbn;
    try destruct (closed u); cbn;
    try discriminate; try exact Hc; reflexivity.
Qed.

Lemma gw_run_calm s evs s2 :
  run s evs = Some s2 -> forallb benign evs = true -> calm s = true ->
  calm s2 = true.
Proof.
  revert s. induction evs as [|ev evs IH]; intros s H Hb Hc.
  - injection H as <-. exact Hc.
  - cbn in H. destruct (step s ev) as [s1|] eqn:Hst; [|discriminate].
    cbn in Hb. apply andb_true_iff in Hb as [Hb1 Hb2].
    exact (IH _ H Hb2 (gw_step_calm _ _ _ Hst Hb1 Hc)).
Qed.

(** Cancelling both directions of a running relay, in either order:
    both connections are closed by plain [close()] calls, nothing more
    is sent. *)
Lemma gw_cancel_both s evs :
  upstream_co s = Running -> downstream_task s = Running ->
  evs = [DownRaise Py.CancelledError; UpRaise Py.CancelledError]
  \/ evs = [UpRaise Py.CancelledError; DownRaise Py.CancelledError] ->
  exists s2,
    run s evs = Some s2
    /\ upstream_co s2 = Finished None
    /\ downstream_task s2 = Finished None
    /\ closed (up_conn s2) = true /\ closed (down_conn s2) = true
    /\ sent (up_conn s2) = sent (up_conn s)
    /\ sent (down_conn s2) = sent (down_conn s)
    /\ (closed_with_status (up_conn s2) = true ->
        closed_with_status (up_conn s) = true)
    /\ (closed_with_status (down_conn s2) = true ->
        closed_with_status (down_conn s) = true).
Proof.
  destruct s as [[uc us ua] [dc ds da] bq bt uco dt]. cbn.
  intros -> -> [->| ->]; cbn;
    eexists; (split; [reflexivity|]);
    unfold closed_with_status; cbn;
    destruct uc, dc; cbn;
    repeat (split; [first [reflexivity|auto; discriminate]|]);
    first [auto; discriminate|reflexivity].
Qed.

(** Once [up_conn] is closed it stays closed and receives no frame. *)
Lemma gw_step_closed_up s ev s1 :
  step s ev = Some s1 -> closed (up_conn s) = true ->
  closed (up_conn s1) = true /\ sent (up_conn s1) = sent (up_conn s).
Proof.
  destruct s as [[uc us ua] dn bq bt uco dt]. cbn.
  intros H ->. gw_cases H; cbn in *;
    unfold upstream_msg, upstream_raise, upstream_exit, downstream_msg,
      downstream_raise, downstream_exit, consume, send, close_downstream,
      close_upstream, set_upstream_co, set_downstream_task,
      set_down_conn, set_up_conn, set_upstream_buffer; cbn;
    try destruct (type msg); try destruct e; try destruct tp; cbn;
    split; reflexivity.
Qed.

Lemma gw_run_closed_up s evs s2 :
  run s evs = Some s2 -> closed (up_conn s) = true ->
  closed (up_conn s2) = true /\ sent (up_conn s2) = sent (up_conn s).
Proof.
  revert s. induction evs as [|ev evs IH]; intros s H Hc.
  - injection H as <-. split; [exact Hc|reflexivity].
  - cbn in H. destruct (step s ev) as [s1|] eqn:Hst; [|discriminate].
    destruct (gw_step_closed_up _ _ _ Hst Hc) as [Hc1 Hs1].
    destruct (IH _ H Hc1) as [Hc2 Hs2].
    split; [exact Hc2|congruence].
Qed.

(** [upstream()] takes text and binary messages one after the other
    and only appends them to the queue. *)
Lemma gw_run_enqueue msgs s :
  upstream_co s = Running ->
  Forall (fun m => is_data (type m) = true) msgs ->
  run s (List.map DownMsg msgs)
  = Some (mkState (up_conn s) (down_conn s)
                  (upstream_buffer s ++ List.map frame_of msgs)
                  (upstream_buffer_task s) (upstream_co s)
                  (downstream_task s)).
Proof.
  revert s. induction msgs as [|m msgs IH]; intros s Hr Hd.
  - cbn. rewrite app_nil_r. destruct s; reflexivity.
  - apply Forall_cons in Hd as [Hm Hd]. cbn [List.map run step].
    rewrite Hr. cbn [done]. unfold upstream_msg.
    destruct (type m) eqn:Ht; try discriminate;
      rewrite IH by (try exact Hd; exact Hr);
      unfold send, frame_of; cbn; rewrite ?Hr, Ht, <- app_assoc;
      reflexivity.
Qed.

End GatewayShutdown.

(** * Delivery from the queue *)

Section GatewayDelivery.

Import Gateway Sessions.








End GatewayDelivery.

(** * The claims *)

Section Claims.

(** C1.  Upload direction of the local proxy.  Along every schedule of a
    session, the frames handed to [ws.send_bytes] are exactly the
    non-empty chunks that [reader.read] returned, each as one binary
    frame and in the order read; hence the bytes the upstream websocket
    receives are, concatenated, the bytes read from the local client. *)
Theorem upload_forwards_all_bytes evs s :
  Local.run Local.run_start evs = Some s ->
  Local.ws_sent s = List.filter Local.nonempty (Local.chunks_read evs)
  /\ List.concat (Local.ws_sent s) = List.concat (Local.chunks_read evs).
Proof.
  intros H. apply run_ws_sent in H. cbn in H. split; [exact H|].
  rewrite H. apply concat_filter_nonempty.
Qed.

Lemma upload_forwards_all_bytes_witness :
  exists s,
    Local.run Local.run_start
      [Local.Read [x61; x62]; Local.WsMsg (mkMsg PING (Py.Bytes []) Py.NoneV);
       Local.SendDone; Local.Read [x63]; Local.SendDone; Local.Read []]
    = Some s
    /\ Local.ws_sent s = [[x61; x62]; [x63]]
    /\ List.concat (Local.ws_sent s) = [x61; x62; x63].
Proof.
  eexists. split; [reflexivity|].
  apply (upload_forwards_all_bytes
           [Local.Read [x61; x62];
            Local.WsMsg (mkMsg PING (Py.Bytes []) Py.NoneV);
            Local.SendDone; Local.Read [x63]; Local.SendDone;
            Local.Read []]).
  reflexivity.
Defined.

(** C2, as the code has it.  In the gateway relay every text or binary
    message that [up_conn] yields is handed to [down_conn] with its
    payload and its type tag, in order.  In the download direction of
    the local proxy, of the text and binary messages that [ws] yields
    the payloads of the binary ones are written to the local socket, in
    order; a text message is not written. *)
Theorem download_relay gevs gs levs ls :
  Gateway.run Gateway.proxy_start gevs = Some gs ->
  Local.run Local.run_start levs = Some ls ->
  Forall (fun m => is_data (type m) = true) (Local.ws_msgs levs) ->
  Gateway.sent (Gateway.down_conn gs)
  = Gateway.data_frames (Gateway.up_msgs gevs)
  /\ Local.written ls
     = List.map data (List.filter Local.is_binary (Local.ws_msgs levs)).
Proof.
  intros Hg Hl Hd. split.
  - apply gateway_download_relay in Hg. exact Hg.
  - apply (run_written_data _ _ _ Hl Hd).
Qed.

Lemma download_relay_witness :
  exists gs ls,
    Gateway.run Gateway.proxy_start
      [Gateway.UpMsg (mkMsg TEXT (Py.Str "a") Py.NoneV);
       Gateway.UpMsg (mkMsg BINARY (Py.Bytes [x62]) Py.NoneV)] = Some gs
    /\ Local.run Local.run_start
         [Local.WsMsg (mkMsg TEXT (Py.Str "a") Py.NoneV);
          Local.WsMsg (mkMsg BINARY (Py.Bytes [x62]) Py.NoneV)] = Some ls
    /\ Gateway.sent (Gateway.down_conn gs)
       = [(Py.Str "a", TEXT); (Py.Bytes [x62], BINARY)]
    /\ Local.written ls = [Py.Bytes [x62]].
Proof.
  do 2 eexists. split; [reflexivity|]. split; [reflexivity|].
  apply (download_relay
           [Gateway.UpMsg (mkMsg TEXT (Py.Str "a") Py.NoneV);
            Gateway.UpMsg (mkMsg BINARY (Py.Bytes [x62]) Py.NoneV)] _
           [Local.WsMsg (mkMsg TEXT (Py.Str "a") Py.NoneV);
            Local.WsMsg (mkMsg BINARY (Py.Bytes [x62]) Py.NoneV)] _);
    [reflexivity|reflexivity|].
  repeat constructor.
Defined.

(** C2 as stated fails in the local proxy: a text frame from upstream
    leaves the local socket without a single write. *)
Lemma local_text_frame_not_relayed :
  exists s,
    Local.run Local.run_start
      [Local.WsMsg (mkMsg TEXT (Py.Str "hi") Py.NoneV)] = Some s
    /\ Local.written s = []
    /\ Local.written s <> [Py.Str "hi"].
Proof.
  eexists. split; [reflexivity|]. split; [reflexivity|]. discriminate.
Qed.






(** The same mapping when the upstream fails in the middle of the body:
    the exception of a later [aread] is handled like one of [fetch]. *)
Example web_handler_midstream_failure :
  Gateway.web_handler
    (inr (Gateway.mkUpResp 200 "OK" [] [inr [x61]; inl Py.BackendClientError]))
  = Gateway.Response (Py.Str "The proxy target server is inaccessible.")
                     502 "Bad Gateway".
Proof. reflexivity. Qed.

(** C5, as the code has it.  [WSProxy.run] is left only when the task
    [downstream()] is done, the local writer is closed and the upstream
    websocket is closed.  [WebSocketProxy.proxy] is left only when
    [upstream()] is done and [down_conn] is closed.  Neither raises
    along a schedule of data, ends of stream, normal close frames and
    cancellations. *)
Theorem relay_returns_closed levs ls gevs gs :
  Local.run Local.run_start levs = Some ls ->
  Gateway.run Gateway.proxy_start gevs = Some gs ->
  (Local.run_result ls <> None ->
   done (Local.down_task ls) = true
   /\ Local.writer_closed ls = true /\ Local.ws_closed ls = true)
  /\ (Gateway.proxy_returned gs = true ->
      done (Gateway.upstream_co gs) = true
      /\ Gateway.closed (Gateway.down_conn gs) = true)
  /\ (forallb Local.benign levs = true ->
      forall e, Local.run_result ls <> Some (Some e))
  /\ (forallb Gateway.benign gevs = true ->
      Gateway.proxy_raised gs = None).
Proof.
  intros Hl Hg. split; [|split; [|split]].
  - intros Hr.
    destruct (run_settled _ _ _ Hl run_start_settled) as [Hw Hd].
    destruct (Hd Hr) as [Hdone Hws]. auto.
  - intros Hr. split; [exact Hr|].
    apply (gw_run_settled _ _ _ Hg); [|exact Hr].
    unfold Gateway.settled. cbn. discriminate.
  - intros Hb e He.
    pose proof (run_calm _ _ _ Hl Hb eq_refl) as Hc.
    unfold Local.calm, Local.run_result in *.
    destruct (Local.main ls); try discriminate.
  - intros Hb.
    pose proof (gw_run_calm _ _ _ Hg Hb eq_refl) as Hc.
    unfold Gateway.calm, Gateway.proxy_raised in *.
    destruct (Gateway.upstream_co gs) as [|[?|]];
      [reflexivity|discriminate|reflexivity].
Qed.

Lemma relay_returns_closed_witness :
  exists ls gs,
    Local.run Local.run_start
      [Local.Read [x61]; Local.SendDone; Local.Read [];
       Local.WsMsg (mkMsg BINARY (Py.Bytes [x62]) Py.NoneV);
       Local.WsMsg (mkMsg CLOSE (Py.Int 1000) (Py.Str ""))] = Some ls
    /\ Gateway.run Gateway.proxy_start
         [Gateway.UpMsg (mkMsg CLOSED Py.NoneV Py.NoneV);
          Gateway.DownMsg (mkMsg CLOSE (Py.Int 1000) (Py.Str ""))]
       = Some gs
    /\ Local.run_result ls = Some None
    /\ Gateway.proxy_returned gs = true
    /\ (Local.run_result ls <> None ->
        done (Local.down_task ls) = true
        /\ Local.writer_closed ls = true /\ Local.ws_closed ls = true)
    /\ (Gateway.proxy_returned gs = true ->
        done (Gateway.upstream_co gs) = true
        /\ Gateway.closed (Gateway.down_conn gs) = true)
    /\ (true = true -> forall e, Local.run_result ls <> Some (Some e))
    /\ (true = true -> Gateway.proxy_raised gs = None).
Proof.
  do 2 eexists.
  split; [reflexivity|]. split; [reflexivity|].
  split; [reflexivity|]. split; [reflexivity|].
  apply (relay_returns_closed
           [Local.Read [x61]; Local.SendDone; Local.Read [];
            Local.WsMsg (mkMsg BINARY (Py.Bytes [x62]) Py.NoneV);
            Local.WsMsg (mkMsg CLOSE (Py.Int 1000) (Py.Str ""))] _
           [Gateway.UpMsg (mkMsg CLOSED Py.NoneV Py.NoneV);
            Gateway.DownMsg (mkMsg CLOSE (Py.Int 1000) (Py.Str ""))] _);
    reflexivity.
Defined.

(** C5 as stated fails in the gateway: when the client closes,
    [proxy()] returns while the task [downstream()] is still running and
    [up_conn] is still open. *)
Lemma gateway_proxy_returns_with_upstream_open :
  exists s,
    Gateway.run Gateway.proxy_start
      [Gateway.DownMsg (mkMsg CLOSE (Py.Int 1000) (Py.Str ""))] = Some s
    /\ Gateway.proxy_returned s = true
    /\ done (Gateway.downstream_task s) = false
    /\ Gateway.closed (Gateway.up_conn s) = false.
Proof. eexists. repeat split. Qed.

(** C6, as the code has it.  When the connect step fails with
    [BackendClientError], both gateway handlers answer 502 Bad Gateway.
    In the local proxy an exception [e] of the connect step leaves
    [run()] before anything is written; [handle_connection] catches it
    and prints it with [print_error]: the local socket receives no
    error block. *)
Theorem connect_failure_surfaced gevs levs e :
  Py.is_Exception e = true -> e <> Py.CancelledError ->
  Gateway.websocket_handler (Some Py.BackendClientError) gevs
  = Some (Gateway.Response
            (Py.Str "The proxy target server is inaccessible.")
            502 "Bad Gateway")
  /\ Gateway.web_handler (inl Py.BackendClientError)
     = Gateway.Response
         (Py.Str "The proxy target server is inaccessible.")
         502 "Bad Gateway"
  /\ exists h,
       Local.handle_connection (Some e) levs = Some h
       /\ Local.socket_written h = []
       /\ Local.printed h = [e]
       /\ Local.reraised h = None.
Proof.
  intros He Hc. split; [reflexivity|]. split; [reflexivity|].
  eexists. split; [reflexivity|].
  destruct e; try discriminate; try contradiction;
    cbn; repeat split; reflexivity.
Qed.

Lemma connect_failure_surfaced_witness :
  Py.is_Exception Py.BackendClientError = true
  /\ Py.BackendClientError <> Py.CancelledError
  /\ Gateway.websocket_handler (Some Py.BackendClientError) []
     = Some (Gateway.Response
               (Py.Str "The proxy target server is inaccessible.")
               502 "Bad Gateway")
  /\ Gateway.web_handler (inl Py.BackendClientError)
     = Gateway.Response
         (Py.Str "The proxy target server is inaccessible.")
         502 "Bad Gateway"
  /\ exists h,
       Local.handle_connection (Some Py.BackendClientError) []
       = Some h
       /\ Local.socket_written h = []
       /\ Local.printed h = [Py.BackendClientError]
       /\ Local.reraised h = None.
Proof.
  split; [reflexivity|]. split; [discriminate|].
  apply (connect_failure_surfaced [] [] Py.BackendClientError);
    [reflexivity|discriminate].
Defined.

(** C6 as stated fails in the local proxy: after a failed connect the
    local socket has received nothing, and in particular no 503 block. *)
Lemma local_connect_failure_writes_nothing :
  exists h,
    Local.handle_connection (Some Py.BackendClientError) [] = Some h
    /\ Local.socket_written h = []
    /\ Local.socket_closed h = false.
Proof. eexists. repeat split. Qed.

(** C7 at the failing input.  [ws] yields a close frame whose close
    code is 1001: [write_error] raises [AttributeError] at
    [msg.data.decode], the task [downstream()] ends with that exception,
    and the writer is closed without having received the error block.
    An error message that carries an exception object as its [data] ends
    in the same way. *)
Theorem abnormal_close_writes_no_error_block :
  Local.error_block (mkMsg CLOSE (Py.Int 1001) (Py.Str "Going away"))
  = inl Py.AttributeError
  /\ Local.run Local.run_start
       [Local.WsMsg (mkMsg CLOSE (Py.Int 1001) (Py.Str "Going away"))]
     = Some (Local.mkState [] false [] true Local.AwaitRead
                           (Finished (Some Py.AttributeError)))
  /\ Local.run Local.run_start
       [Local.WsMsg (mkMsg ERROR (Py.Exc "WebSocketError") Py.NoneV)]
     = Some (Local.mkState [] false [] true Local.AwaitRead
                           (Finished (Some Py.AttributeError))).
Proof. repeat split. Qed.

(** The other two cases of C7 on messages whose payload can be decoded:
    an error frame with a [bytes] payload gets the 503 block before the
    writer is closed, and a close frame with the OK code closes the
    writer without a write. *)
Lemma error_frame_with_bytes_payload (s : Local.state) (b : Py.bytes) x :
  Py.utf8_valid b = true ->
  Local.downstream_msg (mkMsg ERROR (Py.Bytes b) x) s
  = Local.downstream_exit None
      (Local.writer_write
         (Py.Bytes
            (Py.encode (Local.error_head ++ string_of_list_byte b))) s).
Proof.
  intros Hb. unfold Local.downstream_msg, Local.write_error,
    Local.error_block. cbn. rewrite Hb. reflexivity.
Qed.

Lemma normal_close_closes_quietly (s : Local.state) x :
  Local.downstream_msg (mkMsg CLOSE (Py.Int WSCloseCode_OK) x) s
  = Local.downstream_exit None s.
Proof. reflexivity. Qed.

(** Whatever integer close code other than OK the frame carries, the
    error block is not written. *)
Lemma abnormal_close_code_raises (s : Local.state) (code : Z) x :
  code <> WSCloseCode_OK ->
  Local.downstream_msg (mkMsg CLOSE (Py.Int code) x) s
  = Local.downstream_exit (Some Py.AttributeError) s.
Proof.
  intros Hc. unfold Local.downstream_msg. cbn.
  destruct (Z.eqb_spec code WSCloseCode_OK); [contradiction|reflexivity].
Qed.

(** C8.  A session in the middle of a transfer whose two directional
    coroutines are both cancelled, in either order: the relay returns
    without an exception, the upstream and the downstream connection are
    closed, and the cancellation adds nothing to what either peer has
    been sent: no frame, no byte, no close with a status code. *)
Theorem cancellation_closes_quietly ls levs gs gevs :
  Local.uploading ls = true -> Local.down_task ls = Running ->
  levs = [Local.MainRaise Py.CancelledError;
          Local.DownRaise Py.CancelledError]
  \/ levs = [Local.DownRaise Py.CancelledError;
             Local.MainRaise Py.CancelledError] ->
  Gateway.upstream_co gs = Running ->
  Gateway.downstream_task gs = Running ->
  gevs = [Gateway.DownRaise Py.CancelledError;
          Gateway.UpRaise Py.CancelledError]
  \/ gevs = [Gateway.UpRaise Py.CancelledError;
             Gateway.DownRaise Py.CancelledError] ->
  exists ls2 gs2,
    Local.run ls levs = Some ls2
    /\ Gateway.run gs gevs = Some gs2
    /\ Local.run_result ls2 = Some None
    /\ Local.ws_closed ls2 = true /\ Local.writer_closed ls2 = true
    /\ Local.written ls2 = Local.written ls
    /\ Local.ws_sent ls2 = Local.ws_sent ls
    /\ Gateway.proxy_returned gs2 = true
    /\ Gateway.proxy_raised gs2 = None
    /\ done (Gateway.downstream_task gs2) = true
    /\ Gateway.closed (Gateway.up_conn gs2) = true
    /\ Gateway.closed (Gateway.down_conn gs2) = true
    /\ Gateway.sent (Gateway.up_conn gs2) = Gateway.sent (Gateway.up_conn gs)
    /\ Gateway.sent (Gateway.down_conn gs2)
       = Gateway.sent (Gateway.down_conn gs)
    /\ (Gateway.closed_with_status (Gateway.up_conn gs2) = true ->
        Gateway.closed_with_status (Gateway.up_conn gs) = true)
    /\ (Gateway.closed_with_status (Gateway.down_conn gs2) = true ->
        Gateway.closed_with_status (Gateway.down_conn gs) = true).
Proof.
  intros Hu Hd Hl Hgu Hgd Hg.
  destruct (cancel_both ls levs Hu Hd Hl)
    as (ls2 & Hrun & Hm & Ht & Hws & Hwc & Hw & Hs).
  destruct (gw_cancel_both gs gevs Hgu Hgd Hg)
    as (gs2 & Hgrun & Hco & Hdt & Hcu & Hcd & Hsu & Hsd & Heu & Hed).
  exists ls2, gs2.
  unfold Local.run_result, Gateway.proxy_returned, Gateway.proxy_raised.
  rewrite Hm, Hco, Hdt. cbn. repeat (split; [assumption || reflexivity|]).
  assumption.
Qed.

Lemma cancellation_closes_quietly_witness :
  exists ls gs ls2 gs2,
    Local.run Local.run_start
      [Local.Read [x61]; Local.SendDone;
       Local.WsMsg (mkMsg BINARY (Py.Bytes [x62]) Py.NoneV);
       Local.Read [x63]] = Some ls
    /\ Gateway.run Gateway.proxy_start
         [Gateway.DownMsg (mkMsg TEXT (Py.Str "a") Py.NoneV);
          Gateway.UpMsg (mkMsg BINARY (Py.Bytes [x62]) Py.NoneV)]
       = Some gs
    /\ Local.run ls [Local.MainRaise Py.CancelledError;
                     Local.DownRaise Py.CancelledError] = Some ls2
    /\ Gateway.run gs [Gateway.UpRaise Py.CancelledError;
                       Gateway.DownRaise Py.CancelledError] = Some gs2
    /\ Local.ws_closed ls2 = true /\ Local.writer_closed ls2 = true
    /\ Local.written ls2 = [Py.Bytes [x62]]
    /\ Gateway.closed (Gateway.up_conn gs2) = true
    /\ Gateway.closed (Gateway.down_conn gs2) = true
    /\ Gateway.sent (Gateway.down_conn gs2) = [(Py.Bytes [x62], BINARY)]
    /\ Gateway.closed_with_status (Gateway.down_conn gs2) = false.
Proof.
  do 2 eexists.
  destruct (cancellation_closes_quietly
              (Local.mkState [[x61]; [x63]] false [Py.Bytes [x62]] false
                             Local.AwaitSend Running)
              [Local.MainRaise Py.CancelledError;
               Local.DownRaise Py.CancelledError]
              (Gateway.mkState
                 Gateway.new_conn
                 (Gateway.mkConn false [(Py.Bytes [x62], BINARY)] None)
                 [(Py.Str "a", TEXT)] Running Running Running)
              [Gateway.UpRaise Py.CancelledError;
               Gateway.DownRaise Py.CancelledError]
              eq_refl eq_refl (or_introl eq_refl)
              eq_refl eq_refl (or_intror eq_refl))
    as (ls2 & gs2 & Hl & Hg & _ & Hws & Hwc & Hw & _ & _ & _ & _
        & Hcu & Hcd & _ & Hsd & _ & Hed).
  exists ls2, gs2.
  split; [reflexivity|]. split; [reflexivity|].
  split; [exact Hl|]. split; [exact Hg|].
  repeat (split; [assumption|]).
  destruct (Gateway.closed_with_status (Gateway.down_conn gs2));
    [discriminate (Hed eq_refl)|reflexivity].
Defined.

(** C9, as the code has it.  The local proxy has no queue on the
    upload direction: a step that reads a non-empty chunk hands it to
    [ws.send_bytes] itself, and until that send returns no further read
    is taken.  The queue with its consumer belongs to the gateway relay:
    there [upstream()] takes any number of text and binary messages,
    which pile up in [upstream_buffer] while nothing has been sent to
    [up_conn], and it is ready for the next one. *)
Theorem queue_only_in_gateway (s s1 : Local.state) chunk msgs :
  chunk <> [] ->
  Local.step s (Local.Read chunk) = Some s1 ->
  Forall (fun m => is_data (type m) = true) msgs ->
  (Local.ws_sent s1 = Local.ws_sent s ++ [chunk]
   /\ Local.main s1 = Local.AwaitSend
   /\ forall c, Local.step s1 (Local.Read c) = None)
  /\ exists gs,
       Gateway.run Gateway.proxy_start (List.map Gateway.DownMsg msgs)
       = Some gs
       /\ Gateway.upstream_buffer gs = List.map Gateway.frame_of msgs
       /\ Gateway.sent (Gateway.up_conn gs) = []
       /\ Gateway.upstream_co gs = Running.
Proof.
  intros Hc Hs Hd. split.
  - cbn in Hs. destruct (Local.main s); try discriminate.
    injection Hs as <-. destruct chunk as [|b chunk]; [contradiction|].
    cbn. repeat split.
  - eexists. split; [apply gw_run_enqueue; [reflexivity|exact Hd]|].
    cbn. repeat split.
Qed.

Lemma queue_only_in_gateway_witness :
  exists s1,
    [x61] <> []
    /\ Local.step Local.run_start (Local.Read [x61]) = Some s1
    /\ (Local.ws_sent s1 = [[x61]]
        /\ Local.main s1 = Local.AwaitSend
        /\ forall c, Local.step s1 (Local.Read c) = None)
    /\ exists gs,
         Gateway.run Gateway.proxy_start
           [Gateway.DownMsg (mkMsg TEXT (Py.Str "a") Py.NoneV);
            Gateway.DownMsg (mkMsg BINARY (Py.Bytes [x62]) Py.NoneV)]
         = Some gs
         /\ Gateway.upstream_buffer gs
            = [(Py.Str "a", TEXT); (Py.Bytes [x62], BINARY)]
         /\ Gateway.sent (Gateway.up_conn gs) = []
         /\ Gateway.upstream_co gs = Running.
Proof.
  eexists. split; [discriminate|]. split; [reflexivity|].
  apply (queue_only_in_gateway
           Local.run_start _ [x61]
           [mkMsg TEXT (Py.Str "a") Py.NoneV;
            mkMsg BINARY (Py.Bytes [x62]) Py.NoneV]);
    [discriminate|reflexivity|repeat constructor].
Defined.

(** C9 as stated fails: in the local proxy the reader is held up by the
    pending send; a second chunk cannot be read before [ws.send_bytes]
    has returned for the first. *)
Lemma local_reader_waits_for_send :
  Local.run Local.run_start [Local.Read [x61]; Local.Read [x62]] = None
  /\ ~ exists s,
         Local.run Local.run_start [Local.Read [x61]; Local.Read [x62]]
         = Some s.
Proof. split; [reflexivity|]. intros [s H]. discriminate H. Qed.

(** C10.  The consumer takes a frame from the queue while [up_conn] is
    closed: the step removes the frame from the queue and changes
    nothing else, so nothing is sent, no coroutine ends or raises, and
    [down_conn] is untouched; whatever happens afterwards, [up_conn]
    receives no frame any more. *)
Theorem closed_upstream_discards_frame s f q evs s2 :
  done (Gateway.upstream_buffer_task s) = false ->
  Gateway.closed (Gateway.up_conn s) = true ->
  Gateway.upstream_buffer s = f :: q ->
  Gateway.run s (Gateway.Get :: evs) = Some s2 ->
  Gateway.step s Gateway.Get = Some (Gateway.set_upstream_buffer q s)
  /\ Gateway.sent (Gateway.up_conn s2) = Gateway.sent (Gateway.up_conn s).
Proof.
  intros Hd Hc Hq Hrun.
  assert (Gateway.step s Gateway.Get
          = Some (Gateway.set_upstream_buffer q s)) as Hstep.
  { cbn. rewrite Hd, Hq. destruct f as [d tp].
    unfold Gateway.consume. cbn. rewrite Hc. reflexivity. }
  split; [exact Hstep|].
  cbn [Gateway.run] in Hrun. rewrite Hstep in Hrun.
  apply gw_run_closed_up in Hrun; [|exact Hc]. apply Hrun.
Qed.

Lemma closed_upstream_discards_frame_witness :
  exists s2,
    Gateway.run Gateway.proxy_start
      [Gateway.DownMsg (mkMsg TEXT (Py.Str "a") Py.NoneV);
       Gateway.DownMsg (mkMsg TEXT (Py.Str "b") Py.NoneV);
       Gateway.Get; Gateway.UpPeerClosed]
    = Some (Gateway.mkState
              (Gateway.mkConn true [(Py.Str "a", TEXT)] None)
              Gateway.new_conn [(Py.Str "b", TEXT)]
              Running Running Running)
    /\ Gateway.run
         (Gateway.mkState
            (Gateway.mkConn true [(Py.Str "a", TEXT)] None)
            Gateway.new_conn [(Py.Str "b", TEXT)]
            Running Running Running)
         [Gateway.Get;
          Gateway.DownMsg (mkMsg TEXT (Py.Str "c") Py.NoneV)]
       = Some s2
    /\ Gateway.step
         (Gateway.mkState
            (Gateway.mkConn true [(Py.Str "a", TEXT)] None)
            Gateway.new_conn [(Py.Str "b", TEXT)]
            Running Running Running)
         Gateway.Get
       = Some (Gateway.set_upstream_buffer []
                 (Gateway.mkState
                    (Gateway.mkConn true [(Py.Str "a", TEXT)] None)
                    Gateway.new_conn [(Py.Str "b", TEXT)]
                    Running Running Running))
    /\ Gateway.sent (Gateway.up_conn s2) = [(Py.Str "a", TEXT)].
Proof.
  eexists. split; [reflexivity|]. split; [reflexivity|].
  apply (closed_upstream_discards_frame
           (Gateway.mkState
              (Gateway.mkConn true [(Py.Str "a", TEXT)] None)
              Gateway.new_conn [(Py.Str "b", TEXT)]
              Running Running Running)
           (Py.Str "b", TEXT) []
           [Gateway.DownMsg (mkMsg TEXT (Py.Str "c") Py.NoneV)]);
    reflexivity.
Defined.

End Claims.

(** * Further properties: request paths *)

Section PathFacts.

Import Paths.

Variable unicode_digit : N -> bool.

Lemma slash_not_digit : is_digit unicode_digit slash = false.
Proof. reflexivity. Qed.

Lemma skip_digits_run digits rest :
  Forall (fun c => is_digit unicode_digit c = true) digits ->
  skip_digits unicode_digit (digits ++ slash :: rest) = slash :: rest.
Proof.
  induction digits as [|c digits IH]; intros Hd.
  - reflexivity.
  - apply Forall_cons in Hd as [Hc Hd]. cbn. rewrite Hc. exact (IH Hd).
Qed.

Lemma match_version_run digits rest :
  digits <> [] ->
  Forall (fun c => is_digit unicode_digit c = true) digits ->
  match_version unicode_digit (letter_v :: digits ++ slash :: rest)
  = Some rest.
Proof.
  intros Hn Hd. destruct digits as [|c digits]; [contradiction|].
  apply Forall_cons in Hd as [Hc Hd]. cbn -[skip_digits].
  rewrite Hc, (skip_digits_run _ _ Hd). reflexivity.
Qed.

(** The version segment [v<digits>/] at the head of a path, with or
    without a slash before it, is replaced by a single slash; what follows
    the segment is kept as it is. *)
Theorem strip_version_segment digits rest :
  digits <> [] ->
  Forall (fun c => is_digit unicode_digit c = true) digits ->
  strip_version unicode_digit (slash :: letter_v :: digits ++ slash :: rest)
  = slash :: rest
  /\ strip_version unicode_digit (letter_v :: digits ++ slash :: rest)
     = slash :: rest.
Proof.
  intros Hn Hd. unfold strip_version.
  cbn [N.eqb slash Pos.eqb].
  rewrite !(match_version_run _ _ Hn Hd). split; reflexivity.
Qed.

(** A path whose first character, after an optional slash, is not the
    letter [v] is left as it is. *)
Lemma strip_version_other c p :
  c <> letter_v ->
  strip_version unicode_digit (slash :: c :: p) = slash :: c :: p
  /\ (c <> slash -> strip_version unicode_digit (c :: p) = c :: p).
Proof.
  intros Hv. apply N.eqb_neq in Hv. split.
  - unfold strip_version, match_version. cbn [N.eqb slash Pos.eqb].
    destruct p as [|c1 p]; [reflexivity|]. rewrite Hv. reflexivity.
  - intros Hs. apply N.eqb_neq in Hs.
    unfold strip_version, match_version. rewrite Hs.
    destruct p as [|c1 p]; [reflexivity|]. rewrite Hv. reflexivity.
Qed.

(** The rewrite is without effect on the paths of the two websocket
    routes, [/stream/...] and [/wsproxy/...], and so on the path that the
    local proxy builds for its upstream websocket. *)
Theorem websocket_paths_not_rewritten rest session_id protocol :
  strip_version unicode_digit (codes "/stream/" ++ rest)
  = codes "/stream/" ++ rest
  /\ strip_version unicode_digit (codes "/wsproxy/" ++ rest)
     = codes "/wsproxy/" ++ rest
  /\ strip_version unicode_digit (ws_path session_id protocol)
     = ws_path session_id protocol.
Proof.
  repeat split; apply strip_version_other; discriminate.
Qed.

(** For one protocol, sessions with different identifiers get different
    upstream paths. *)
Theorem ws_path_injective protocol a b :
  ws_path a protocol = ws_path b protocol -> a = b.
Proof.
  unfold ws_path. intros H.
  apply app_inv_head in H. apply app_inv_tail in H. exact H.
Qed.

Lemma ws_path_injective_witness :
  ws_path (codes "sess-1") app_protocol
  = codes "/stream/kernel/sess-1/httpproxy"
  /\ codes "sess-1" = codes "sess-1".
Proof.
  split; [reflexivity|].
  apply (ws_path_injective app_protocol (codes "sess-1") (codes "sess-1")).
  reflexivity.
Defined.

End PathFacts.

Lemma strip_version_segment_witness :
  Paths.codes "4" <> []
  /\ Forall (fun c => Paths.is_digit (fun _ => false) c = true)
            (Paths.codes "4")
  /\ Paths.strip_version (fun _ => false) (Paths.codes "/v4/kernel/create")
     = Paths.codes "/kernel/create"
  /\ Paths.strip_version (fun _ => false) (Paths.codes "v4/kernel/create")
     = Paths.codes "/kernel/create".
Proof.
  split; [discriminate|]. split; [repeat constructor|].
  apply (strip_version_segment
           (fun _ => false) (Paths.codes "4") (Paths.codes "kernel/create"));
    [discriminate|repeat constructor].
Defined.

(** * Further properties: the HTTP handlers *)

Section HandlerFacts.

Import Gateway.

Lemma stream_body_chunks pre acc rest :
  Forall (fun c : Py.bytes => c <> []) pre ->
  (rest = [] \/ exists post, rest = inr [] :: post) ->
  stream_body (List.map inr pre ++ rest) acc = inr (acc ++ pre).
Proof.
  revert acc. induction pre as [|c pre IH]; intros acc Hp Hr.
  - rewrite app_nil_r. destruct Hr as [->|[post ->]]; reflexivity.
  - apply Forall_cons in Hp as [Hc Hp]. cbn.
    destruct c as [|b c]; [contradiction|].
    rewrite (IH _ Hp Hr), <- app_assoc. reflexivity.
Qed.

(** When the upstream answers and no read fails, [web_handler] passes on
    the status and the reason of the upstream response and writes its
    chunks to the caller one by one, unchanged and in order, up to the end
    of the body: the first empty chunk ends the stream, and nothing after
    it is read. *)
Theorem web_handler_streams_body st rs hs pre rest :
  Forall (fun c : Py.bytes => c <> []) pre ->
  (rest = [] \/ exists post, rest = inr [] :: post) ->
  exists down_headers,
    web_handler (inr (mkUpResp st rs hs (List.map inr pre ++ rest)))
    = StreamResponse st rs down_headers pre.
Proof.
  intros Hp Hr. eexists. unfold web_handler, web_try. cbn.
  rewrite (stream_body_chunks _ [] _ Hp Hr). reflexivity.
Qed.

Lemma web_handler_streams_body_witness :
  exists down_headers,
    web_handler
      (inr (mkUpResp 200 "OK" []
              [inr [x61; x62]; inr [x63]; inr [];
               inl Py.BackendClientError]))
    = StreamResponse 200 "OK" down_headers [[x61; x62]; [x63]].
Proof.
  apply (web_handler_streams_body
           200 "OK" [] [[x61; x62]; [x63]]
           [inr []; inl Py.BackendClientError]).
  - repeat constructor; discriminate.
  - right. eexists. reflexivity.
Defined.

(** A failure of the connect step is answered by [websocket_handler]
    with the response that [web_handler] gives for the same exception
    raised by [fetch()]. *)
Theorem handlers_agree_on_failure e evs :
  websocket_handler (Some e) evs = Some (web_handler (inl e)).
Proof. destruct e; reflexivity. Qed.

(** What leaves a handler as an exception: an exception of the [try]
    block that is not an instance of [Exception], or the [ValueError] of
    [web.Response] for a [BackendAPIError] whose data is not [bytes],
    [str] or [None].  Every other exception of the [try] block is
    answered with a response. *)
Theorem handlers_contain_exceptions fetch connect evs e :
  (web_handler fetch = Reraised e ->
   (web_try fetch = inl e /\ Py.is_Exception e = false)
   \/ exists st rs d,
        web_try fetch = inl (Py.BackendAPIError st rs d)
        /\ is_body d = false /\ e = Py.OtherException "ValueError")
  /\ (websocket_handler connect evs = Some (Reraised e) ->
      (websocket_try connect evs = Some (inl e)
       /\ Py.is_Exception e = false)
      \/ exists st rs d,
           websocket_try connect evs
           = Some (inl (Py.BackendAPIError st rs d))
           /\ is_body d = false /\ e = Py.OtherException "ValueError").
Proof.
  split.
  - unfold web_handler. destruct (web_try fetch) as [e0|r] eqn:Ht.
    + destruct e0 as [|st rs d| | | | | | |]; cbn; intros H;
        try discriminate;
        try (injection H as <-; left; split; reflexivity).
      unfold web_Response in H. destruct (is_body d) eqn:Hd;
        [discriminate|]. injection H as <-.
      right. exists st, rs, d. repeat split. exact Hd.
    + unfold web_try in Ht. destruct fetch as [e1|up]; [discriminate|].
      destruct (stream_body (chunks up) []); [discriminate|].
      injection Ht as <-. discriminate.
  - unfold websocket_handler.
    destruct (websocket_try connect evs) as [[e0|r]|] eqn:Ht;
      [| |discriminate].
    + destruct e0 as [|st rs d| | | | | | |]; cbn; intros H;
        try discriminate;
        try (injection H as <-; left; split; reflexivity).
      unfold web_Response in H. destruct (is_body d) eqn:Hd;
        [discriminate|]. injection H as <-.
      right. exists st, rs, d. repeat split. exact Hd.
    + unfold websocket_try in Ht. destruct connect; [discriminate|].
      destruct (run proxy_start evs) as [s|]; [|discriminate].
      destruct (upstream_co s) as [|[?|]]; try discriminate.
      injection Ht as <-. discriminate.
Qed.

Lemma handlers_contain_exceptions_witness :
  web_handler (inl Py.KeyboardInterrupt) = Reraised Py.KeyboardInterrupt
  /\ ((web_try (inl Py.KeyboardInterrupt) = inl Py.KeyboardInterrupt
       /\ Py.is_Exception Py.KeyboardInterrupt = false)
      \/ exists st rs d,
           web_try (inl Py.KeyboardInterrupt)
           = inl (Py.BackendAPIError st rs d)
           /\ is_body d = false
           /\ Py.KeyboardInterrupt = Py.OtherException "ValueError").
Proof.
  split; [reflexivity|].
  apply (proj1 (handlers_contain_exceptions
                  (inl Py.KeyboardInterrupt) None [] Py.KeyboardInterrupt)).
  reflexivity.
Defined.

(** [websocket_handler] hands the websocket back to the HTTP layer only
    after [proxy()] has returned without an exception, and then
    [down_conn] is closed. *)
Theorem websocket_handler_returns_closed evs s :
  websocket_handler None evs = Some (WebSocketResponse s) ->
  run proxy_start evs = Some s
  /\ upstream_co s = Finished None
  /\ closed (down_conn s) = true.
Proof.
  unfold websocket_handler, websocket_try.
  destruct (run proxy_start evs) as [s0|] eqn:Hrun; [|discriminate].
  destruct (upstream_co s0) as [|[e|]] eqn:Hco; [discriminate| |].
  - destruct e; cbn; try discriminate;
      unfold web_Response; destruct (is_body _); discriminate.
  - intros H. injection H as <-. split; [reflexivity|]. split; [exact Hco|].
    apply (gw_run_settled _ _ _ Hrun).
    + unfold settled. cbn. discriminate.
    + unfold proxy_returned. rewrite Hco. reflexivity.
Qed.

Lemma websocket_handler_returns_closed_witness :
  exists s,
    websocket_handler None
      [DownMsg (mkMsg TEXT (Py.Str "a") Py.NoneV); DownEnd]
    = Some (WebSocketResponse s)
    /\ upstream_co s = Finished None
    /\ closed (down_conn s) = true.
Proof.
  eexists. split; [reflexivity|].
  apply (websocket_handler_returns_closed
           [DownMsg (mkMsg TEXT (Py.Str "a") Py.NoneV); DownEnd]).
  reflexivity.
Defined.

End HandlerFacts.

(** * Further properties: the gateway relay *)

Section GatewayMore.

Import Gateway Sessions.

Ltac gw_ops :=
  unfold upstream_msg, upstream_raise, upstream_exit, downstream_msg,
    downstream_raise, downstream_exit, consume, send, close_downstream,
    close_upstream, set_upstream_co, set_downstream_task, set_down_conn,
    set_up_conn, set_upstream_buffer, conn_close, conn_send,
    conn_peer_closed in *.

Ltac gw_event H :=
  match type of H with
  | step _ ?ev = Some _ =>
      destruct ev as [msg| |e|msg| |e| | ]; cbn [step] in H;
      try match type of H with
          | context [done ?t] => destruct (done t) eqn:?; [discriminate|]
          end;
      try match type of H with
          | context [upstream_buffer ?s] =>
              destruct (upstream_buffer s) as [|[d tp] q'] eqn:?;
              [discriminate|]
          end;
      injection H as <-
  end.

(** Closing an end twice is closing it once. *)
Theorem close_idempotent s :
  close_downstream (close_downstream s) = close_downstream s
  /\ close_upstream (close_upstream s) = close_upstream s.
Proof.
  destruct s as [[uc us ua] [dc ds da] bq bt uco dt]. gw_ops. cbn.
  split; [destruct dc; reflexivity|].
  destruct uc; cbn; destruct bt; reflexivity.
Qed.

Lemma step_download_cleaned s ev s1 :
  step s ev = Some s1 -> download_cleaned s -> download_cleaned s1.
Proof.
  unfold download_cleaned. destruct s as [[uc us ua] dn bq bt uco dt].
  cbn. intros H Hs. gw_event H; cbn in *; gw_ops; cbn;
    try destruct (type msg); try destruct e; try destruct tp; cbn;
    try destruct uc; cbn; try destruct bt; cbn;
    try (intros; split; reflexivity); try exact Hs;
    intros Hd; try discriminate;
    try (destruct (Hs Hd) as [? ?]; split; (reflexivity || assumption)).
Qed.

Lemma run_download_cleaned s evs s2 :
  run s evs = Some s2 -> download_cleaned s -> download_cleaned s2.
Proof.
  revert s. induction evs as [|ev evs IH]; intros s H Hs.
  - injection H as <-. exact Hs.
  - cbn in H. destruct (step s ev) as [s1|] eqn:Hst; [|discriminate].
    exact (IH _ H (step_download_cleaned _ _ _ Hst Hs)).
Qed.

(** Whenever [upstream()] and [downstream()] have both ended, in whatever
    way and order, the consumer task is stopped and both connections are
    closed. *)
Theorem relay_torn_down evs s :
  run proxy_start evs = Some s ->
  done (upstream_co s) = true -> done (downstream_task s) = true ->
  torn_down s.
Proof.
  intros Hrun Hu Hd. unfold torn_down.
  assert (download_cleaned proxy_start) as H0
    by (unfold download_cleaned; cbn; discriminate).
  destruct (run_download_cleaned _ _ _ Hrun H0 Hd) as [Hb Hc].
  split; [exact Hb|]. split; [exact Hc|].
  apply (gw_run_settled _ _ _ Hrun); [|exact Hu].
  unfold settled. cbn. discriminate.
Qed.

Lemma relay_torn_down_witness :
  exists s,
    run proxy_start
      [DownMsg (mkMsg TEXT (Py.Str "a") Py.NoneV);
       UpRaise (Py.OtherException "ConnectionResetError");
       DownRaise Py.CancelledError] = Some s
    /\ torn_down s.
Proof.
  eexists. split; [reflexivity|].
  apply (relay_torn_down
           [DownMsg (mkMsg TEXT (Py.Str "a") Py.NoneV);
            UpRaise (Py.OtherException "ConnectionResetError");
            DownRaise Py.CancelledError]); reflexivity.
Defined.

Lemma step_consumer_stopped s ev s1 :
  step s ev = Some s1 -> done (upstream_buffer_task s) = true ->
  upstream_buffer s1 = upstream_buffer s ++ enqueued [ev]
  /\ done (upstream_buffer_task s1) = true.
Proof.
  destruct s as [up dn bq bt uco dt]. cbn. intros H Hb.
  gw_event H; cbn in *; gw_ops; cbn; try congruence;
    unfold enqueued, data_frames, frame_of; cbn;
    try (destruct msg as [t d x]; destruct t); try destruct e; cbn;
    rewrite ?app_nil_r, ?Hb; cbn; split; reflexivity || assumption.
Qed.

(** Once [downstream()] has ended, [up_conn] receives nothing any more:
    the frames still in the queue and those that [upstream()] enqueues
    afterwards stay there. *)
Theorem frames_after_download_end_are_kept evs s evs2 s2 :
  run proxy_start evs = Some s ->
  done (downstream_task s) = true ->
  run s evs2 = Some s2 ->
  sent (up_conn s2) = sent (up_conn s)
  /\ upstream_buffer s2 = upstream_buffer s ++ enqueued evs2.
Proof.
  intros Hrun Hd Hrun2.
  assert (download_cleaned proxy_start) as H0
    by (unfold download_cleaned; cbn; discriminate).
  destruct (run_download_cleaned _ _ _ Hrun H0 Hd) as [Hb Hc].
  split; [apply (gw_run_closed_up _ _ _ Hrun2 Hc)|].
  clear Hrun Hd Hc H0. revert s Hb Hrun2.
  induction evs2 as [|ev evs2 IH]; intros s Hb Hrun2.
  - injection Hrun2 as <-. cbn. rewrite app_nil_r. reflexivity.
  - cbn in Hrun2. destruct (step s ev) as [s1|] eqn:Hst; [|discriminate].
    destruct (step_consumer_stopped _ _ _ Hst Hb) as [Hq Hb1].
    rewrite (IH _ Hb1 Hrun2), Hq.
    change (ev :: evs2) with ([ev] ++ evs2).
    rewrite enqueued_app, app_assoc. reflexivity.
Qed.

Lemma frames_after_download_end_are_kept_witness :
  exists s s2,
    run proxy_start
      [DownMsg (mkMsg TEXT (Py.Str "a") Py.NoneV);
       UpMsg (mkMsg CLOSED Py.NoneV Py.NoneV)] = Some s
    /\ run s [DownMsg (mkMsg BINARY (Py.Bytes [x62]) Py.NoneV)] = Some s2
    /\ sent (up_conn s2) = []
    /\ upstream_buffer s2 = [(Py.Str "a", TEXT); (Py.Bytes [x62], BINARY)].
Proof.
  do 2 eexists. split; [reflexivity|]. split; [reflexivity|].
  destruct (frames_after_download_end_are_kept
              [DownMsg (mkMsg TEXT (Py.Str "a") Py.NoneV);
               UpMsg (mkMsg CLOSED Py.NoneV Py.NoneV)] _
              [DownMsg (mkMsg BINARY (Py.Bytes [x62]) Py.NoneV)] _
              eq_refl eq_refl eq_refl) as [H1 H2].
  split; [exact H1|exact H2].
Defined.

Lemma step_status_close s ev s1 :
  step s ev = Some s1 ->
  (closed_with_status (up_conn s) = false ->
   closed_with_status (up_conn s1) = false)
  /\ (upstream_failure ev = false ->
      closed_with_status (down_conn s) = false ->
      closed_with_status (down_conn s1) = false).
Proof.
  destruct s as [[uc us ua] [dc ds da] bq bt uco dt].
  unfold closed_with_status. cbn. intros H.
  gw_event H; cbn in *; gw_ops; cbn;
    try destruct (type msg); try destruct e; try destruct tp; cbn;
    try destruct uc; try destruct dc; cbn;
    split; intros; try assumption; try reflexivity; discriminate.
Qed.

Lemma run_up_no_status s evs s2 :
  run s evs = Some s2 ->
  closed_with_status (up_conn s) = false ->
  closed_with_status (up_conn s2) = false.
Proof.
  revert s. induction evs as [|ev evs IH]; intros s Hrun Hu.
  - injection Hrun as <-. exact Hu.
  - cbn in Hrun. destruct (step s ev) as [s1|] eqn:Hst; [|discriminate].
    exact (IH _ Hrun (proj1 (step_status_close _ _ _ Hst) Hu)).
Qed.

Lemma run_down_no_status s evs s2 :
  run s evs = Some s2 ->
  forallb (fun ev => negb (upstream_failure ev)) evs = true ->
  closed_with_status (down_conn s) = false ->
  closed_with_status (down_conn s2) = false.
Proof.
  revert s. induction evs as [|ev evs IH]; intros s Hrun Hf Hd.
  - injection Hrun as <-. exact Hd.
  - cbn in Hrun. destruct (step s ev) as [s1|] eqn:Hst; [|discriminate].
    cbn in Hf. apply andb_true_iff in Hf as [Hf1 Hf2].
    apply negb_true_iff in Hf1.
    exact (IH _ Hrun Hf2 (proj2 (step_status_close _ _ _ Hst) Hf1 Hd)).
Qed.

(** The relay never closes [up_conn] with a status code, and it closes
    [down_conn] with one only after a [ClientConnectorError] or a
    [ClientResponseError] has been raised into [downstream()]. *)
Theorem status_close_only_on_upstream_failure evs s :
  run proxy_start evs = Some s ->
  closed_with_status (up_conn s) = false
  /\ (forallb (fun ev => negb (upstream_failure ev)) evs = true ->
      closed_with_status (down_conn s) = false).
Proof.
  intros Hrun. split.
  - exact (run_up_no_status _ _ _ Hrun eq_refl).
  - intros Hf. exact (run_down_no_status _ _ _ Hrun Hf eq_refl).
Qed.

Lemma status_close_only_on_upstream_failure_witness :
  exists s,
    run proxy_start
      [UpMsg (mkMsg TEXT (Py.Str "a") Py.NoneV);
       UpRaise (Py.OtherException "ConnectionResetError");
       DownRaise Py.CancelledError] = Some s
    /\ closed_with_status (up_conn s) = false
    /\ (true = true -> closed_with_status (down_conn s) = false).
Proof.
  eexists. split; [reflexivity|].
  apply (status_close_only_on_upstream_failure
           [UpMsg (mkMsg TEXT (Py.Str "a") Py.NoneV);
            UpRaise (Py.OtherException "ConnectionResetError");
            DownRaise Py.CancelledError]).
  reflexivity.
Defined.

(** A failure of the upstream connection raised into [downstream()]
    while the client is still connected closes [down_conn] with a status:
    503 and "Connection failed" for [ClientConnectorError], the status
    and the message of the error for [ClientResponseError]; the task ends
    without an exception, with [up_conn] closed. *)
Theorem upstream_failure_closes_with_status s :
  downstream_task s = Running ->
  closed (down_conn s) = false ->
  (exists s1,
      step s (UpRaise Py.ClientConnectorError) = Some s1
      /\ close_args (down_conn s1)
         = Some (Some (503, "Connection failed"%string))
      /\ downstream_task s1 = Finished None
      /\ closed (up_conn s1) = true /\ closed (down_conn s1) = true)
  /\ forall status message,
      exists s1,
        step s (UpRaise (Py.ClientResponseError status message)) = Some s1
        /\ close_args (down_conn s1) = Some (Some (status, message))
        /\ downstream_task s1 = Finished None
        /\ closed (up_conn s1) = true /\ closed (down_conn s1) = true.
Proof.
  destruct s as [[uc us ua] [dc ds da] bq bt uco dt]. cbn.
  intros -> ->. split; [|intros status message];
    eexists; (split; [reflexivity|]); gw_ops; cbn;
    destruct uc; cbn; repeat split; reflexivity.
Qed.

Lemma upstream_failure_closes_with_status_witness :
  exists s1,
    step proxy_start (UpRaise (Py.ClientResponseError 404 "Not Found"))
    = Some s1
    /\ close_args (down_conn s1) = Some (Some (404, "Not Found"%string))
    /\ downstream_task s1 = Finished None
    /\ closed (up_conn s1) = true /\ closed (down_conn s1) = true.
Proof.
  destruct (upstream_failure_closes_with_status proxy_start
              eq_refl eq_refl) as [_ H].
  exact (H 404 "Not Found"%string).
Defined.

End GatewayMore.

(** * Further properties: the local relay *)

Section LocalMore.

Import Local Sessions.

Lemma step_after_download s ev s1 :
  step s ev = Some s1 -> done (down_task s) = true ->
  written s1 = written s /\ writer_closed s1 = writer_closed s
  /\ done (down_task s1) = true.
Proof.
  intros H Hd. destruct ev as [chunk| |e|msg| |e]; cbn [step] in H;
    try (rewrite Hd in H; discriminate);
    destruct (main s); try discriminate; injection H as <-.
  - unfold main_read. destruct chunk; [|cbn; auto].
    destruct (main_finally_fields None s) as (_ & Hw & Hc & Ht).
    rewrite Hw, Hc, Ht. auto.
  - cbn. auto.
  - destruct (main_raise_fields e s) as (_ & Hw & Hc & Ht).
    rewrite Hw, Hc, Ht. auto.
  - destruct (main_raise_fields e s) as (_ & Hw & Hc & Ht).
    rewrite Hw, Hc, Ht. auto.
Qed.

(** When [downstream()] has ended the writer is closed, and from then on
    nothing is written to it, whatever the upload loop still does. *)
Theorem nothing_written_after_close evs s evs2 s2 :
  run run_start evs = Some s ->
  done (down_task s) = true ->
  run s evs2 = Some s2 ->
  writer_closed s = true /\ written s2 = written s.
Proof.
  intros Hrun Hd Hrun2. split.
  - exact (proj1 (run_settled _ _ _ Hrun run_start_settled) Hd).
  - clear Hrun. revert s Hd Hrun2.
    induction evs2 as [|ev evs2 IH]; intros s Hd Hrun2.
    + injection Hrun2 as <-. reflexivity.
    + apply lc_run_cons in Hrun2 as (s1 & Hst & Hr).
      destruct (step_after_download _ _ _ Hst Hd) as (Hw & _ & Hd1).
      rewrite (IH _ Hd1 Hr). exact Hw.
Qed.

Lemma nothing_written_after_close_witness :
  exists s s2,
    run run_start
      [WsMsg (mkMsg BINARY (Py.Bytes [x61]) Py.NoneV);
       WsMsg (mkMsg CLOSE (Py.Int 1000) (Py.Str ""))] = Some s
    /\ run s [Read [x62]; SendDone; Read []] = Some s2
    /\ writer_closed s = true
    /\ written s2 = [Py.Bytes [x61]].
Proof.
  do 2 eexists. split; [reflexivity|]. split; [reflexivity|].
  destruct (nothing_written_after_close
              [WsMsg (mkMsg BINARY (Py.Bytes [x61]) Py.NoneV);
               WsMsg (mkMsg CLOSE (Py.Int 1000) (Py.Str ""))] _
              [Read [x62]; SendDone; Read []] _
              eq_refl eq_refl eq_refl) as [H1 H2].
  split; [exact H1|exact H2].
Defined.

Lemma streaming_while_awaited msgs s p :
  main s = AwaitDownTask p -> down_task s = Running ->
  Forall (fun m => keeps_streaming m = true) msgs ->
  run s (List.map WsMsg msgs)
  = Some (mkState (ws_sent s) (ws_closed s)
                  (written s
                   ++ List.map data (List.filter is_binary msgs))
                  (writer_closed s) (AwaitDownTask p) Running).
Proof.
  revert s. induction msgs as [|m msgs IH]; intros s Hm Hd Hk.
  - cbn. rewrite app_nil_r, <- Hm, <- Hd. destruct s; reflexivity.
  - apply Forall_cons in Hk as [Hk1 Hk]. cbn [List.map run step].
    rewrite Hd. cbn [done].
    unfold keeps_streaming in Hk1. unfold downstream_msg, is_binary.
    cbn [List.filter].
    destruct (type m) eqn:Ht; try discriminate;
      unfold wake_main, writer_write; cbn; rewrite ?Hm, ?Hd;
      rewrite IH by (try exact Hk; try exact Hm; try exact Hd; reflexivity);
      cbn; rewrite ?Ht, <- ?app_assoc; reflexivity.
Qed.

(** After the end of the upload loop (end of the local stream, a
    cancellation or another exception) [run()] does not return as long as
    the upstream keeps sending messages other than ERROR and CLOSE: it
    stays suspended on the download task, both ends stay as they are, and
    the binary payloads are still written to the local socket. *)
Theorem run_waits_for_download s ev0 msgs :
  main s = AwaitRead -> down_task s = Running ->
  (ev0 = Read [] \/ exists e, ev0 = MainRaise e) ->
  Forall (fun m => keeps_streaming m = true) msgs ->
  exists s2,
    run s (ev0 :: List.map WsMsg msgs) = Some s2
    /\ run_result s2 = None
    /\ ws_closed s2 = ws_closed s /\ writer_closed s2 = writer_closed s
    /\ ws_sent s2 = ws_sent s
    /\ written s2
       = written s ++ List.map data (List.filter is_binary msgs).
Proof.
  intros Hm Hd Hev Hk.
  assert (exists p,
             step s ev0
             = Some (mkState (ws_sent s) (ws_closed s) (written s)
                             (writer_closed s) (AwaitDownTask p) Running))
    as [p Hst].
  { destruct Hev as [->|[e ->]]; cbn; rewrite Hm.
    - exists None. unfold main_read, main_finally. rewrite Hd. reflexivity.
    - destruct e; eexists; unfold main_raise, main_finally; rewrite Hd;
        reflexivity. }
  eexists. cbn [run]. rewrite Hst.
  rewrite (streaming_while_awaited
             msgs
             (mkState (ws_sent s) (ws_closed s) (written s)
                      (writer_closed s) (AwaitDownTask p) Running)
             p eq_refl eq_refl Hk).
  cbn. repeat split.
Qed.

Lemma run_waits_for_download_witness :
  exists s2,
    run run_start
      (Read [] ::
       List.map WsMsg
         [mkMsg BINARY (Py.Bytes [x61]) Py.NoneV;
          mkMsg PING (Py.Bytes []) Py.NoneV;
          mkMsg BINARY (Py.Bytes [x62]) Py.NoneV]) = Some s2
    /\ run_result s2 = None
    /\ ws_closed s2 = false /\ writer_closed s2 = false
    /\ ws_sent s2 = []
    /\ written s2 = [Py.Bytes [x61]; Py.Bytes [x62]].
Proof.
  apply (run_waits_for_download
           run_start (Read [])
           [mkMsg BINARY (Py.Bytes [x61]) Py.NoneV;
            mkMsg PING (Py.Bytes []) Py.NoneV;
            mkMsg BINARY (Py.Bytes [x62]) Py.NoneV]);
    [reflexivity|reflexivity|left; reflexivity|repeat constructor].
Defined.

(** An exception with which [downstream()] ends reaches the caller of
    [run()] only if the upload loop has ended before: when the task fails
    first and the local stream ends afterwards, [run()] returns normally
    and the exception is lost. *)
Theorem download_exception_needs_waiting_run s e :
  main s = AwaitRead -> down_task s = Running -> e <> Py.CancelledError ->
  (exists s2,
      run s [Read []; DownRaise e] = Some s2
      /\ run_result s2 = Some (Some e))
  /\ (exists s2,
         run s [DownRaise e; Read []] = Some s2
         /\ run_result s2 = Some None
         /\ down_task s2 = Finished (Some e)).
Proof.
  destruct s as [a b c d m t]. cbn. intros -> -> He.
  destruct e; try contradiction;
    split; eexists; (split; [reflexivity|]); cbn; repeat split.
Qed.

Lemma download_exception_needs_waiting_run_witness :
  (exists s2,
      run run_start [Read []; DownRaise Py.AttributeError] = Some s2
      /\ run_result s2 = Some (Some Py.AttributeError))
  /\ (exists s2,
         run run_start [DownRaise Py.AttributeError; Read []] = Some s2
         /\ run_result s2 = Some None
         /\ down_task s2 = Finished (Some Py.AttributeError)).
Proof.
  apply (download_exception_needs_waiting_run run_start Py.AttributeError);
    [reflexivity|reflexivity|discriminate].
Defined.

(** [handle_connection] after [run()] has ended, or after the connect
    step has failed, with the exception [e]: a cancellation is dropped
    without a trace; any other instance of [Exception] is printed with
    [print_error], exactly once, and does not leave the handler; an
    exception that is not an instance of [Exception] is not printed and
    goes on to the listener.  When [run()] returns normally nothing is
    printed. *)
Theorem handle_connection_contains_exceptions connect evs h :
  handle_connection connect evs = Some h ->
  exists r,
    match connect with
    | Some e => r = Some e /\ socket_written h = []
    | None =>
        exists s,
          run run_start evs = Some s /\ run_result s = Some r
          /\ socket_written h = written s
    end
    /\ match r with
       | None => printed h = [] /\ reraised h = None
       | Some e =>
           (e = Py.CancelledError ->
            printed h = [] /\ reraised h = None)
           /\ (e <> Py.CancelledError -> Py.is_Exception e = true ->
               printed h = [e] /\ reraised h = None)
           /\ (Py.is_Exception e = false ->
               printed h = [] /\ reraised h = Some e)
       end.
Proof.
  assert (forall r w c,
             match r with
             | None =>
                 printed (handle_result r w c) = []
                 /\ reraised (handle_result r w c) = None
             | Some e =>
                 (e = Py.CancelledError ->
                  printed (handle_result r w c) = []
                  /\ reraised (handle_result r w c) = None)
                 /\ (e <> Py.CancelledError -> Py.is_Exception e = true ->
                     printed (handle_result r w c) = [e]
                     /\ reraised (handle_result r w c) = None)
                 /\ (Py.is_Exception e = false ->
                     printed (handle_result r w c) = []
                     /\ reraised (handle_result r w c) = Some e)
             end) as Hres.
  { intros [e0|] w c; [|split; reflexivity].
    destruct e0; cbn; repeat split; intros; try reflexivity;
      try discriminate; try contradiction. }
  unfold handle_connection. destruct connect as [e0|].
  - intros H. injection H as <-. exists (Some e0).
    split; [split; [reflexivity|]|exact (Hres (Some e0) [] false)].
    destruct e0; reflexivity.
  - destruct (run run_start evs) as [s|]; [|discriminate].
    destruct (run_result s) as [r|] eqn:Hr; [|discriminate].
    intros H. injection H as <-. exists r.
    split; [|exact (Hres r (written s) (writer_closed s))].
    exists s. split; [reflexivity|]. split; [exact Hr|].
    destruct r as [[]|]; reflexivity.
Qed.

Lemma handle_connection_contains_exceptions_witness :
  exists h,
    handle_connection None [Read []; DownRaise Py.AttributeError] = Some h
    /\ exists r,
         (exists s,
             run run_start [Read []; DownRaise Py.AttributeError] = Some s
             /\ run_result s = Some r /\ socket_written h = written s)
         /\ match r with
            | None => printed h = [] /\ reraised h = None
            | Some e =>
                (e = Py.CancelledError ->
                 printed h = [] /\ reraised h = None)
                /\ (e <> Py.CancelledError -> Py.is_Exception e = true ->
                    printed h = [e] /\ reraised h = None)
                /\ (Py.is_Exception e = false ->
                    printed h = [] /\ reraised h = Some e)
            end.
Proof.
  eexists. split; [reflexivity|].
  apply (handle_connection_contains_exceptions
           None [Read []; DownRaise Py.AttributeError]).
  reflexivity.
Defined.

Lemma encode_app (s1 s2 : string) :
  Py.encode (s1 ++ s2) = Py.encode s1 ++ Py.encode s2.
Proof.
  unfold Py.encode, list_byte_of_string.
  induction s1 as [|c s1 IH]; [reflexivity|].
  cbn. rewrite IH. reflexivity.
Qed.

Lemma error_block_bytes t b x :
  error_block (mkMsg t (Py.Bytes b) x)
  = if Py.utf8_valid b then inr (Py.encode error_head ++ b)
    else inl Py.UnicodeDecodeError.
Proof.
  unfold error_block, Py.decode_utf8. cbn [data].
  destruct (Py.utf8_valid b); [|reflexivity].
  rewrite encode_app. unfold Py.encode at 2.
  rewrite list_byte_of_string_of_list_byte. reflexivity.
Qed.

(** The reply to an error frame whose payload is [bytes]: when the payload
    is well-formed UTF-8, the local socket receives one block, the fixed
    503 head followed by the payload bytes as they came, and is closed;
    otherwise decoding fails with [UnicodeDecodeError], nothing is
    written, and the socket is closed all the same. *)
Theorem error_frame_reply s b x s1 :
  down_task s = Running ->
  step s (WsMsg (mkMsg ERROR (Py.Bytes b) x)) = Some s1 ->
  writer_closed s1 = true
  /\ (Py.utf8_valid b = true ->
      written s1 = written s ++ [Py.Bytes (Py.encode error_head ++ b)]
      /\ down_task s1 = Finished None)
  /\ (Py.utf8_valid b = false ->
      written s1 = written s
      /\ down_task s1 = Finished (Some Py.UnicodeDecodeError)).
Proof.
  intros Hd H. cbn [step] in H. rewrite Hd in H. cbn [done] in H.
  injection H as <-.
  destruct (wake_main_fields
              (downstream_msg (mkMsg ERROR (Py.Bytes b) x) s))
    as (_ & Hw & Hc & Ht).
  rewrite Hw, Hc, Ht.
  unfold downstream_msg, write_error. cbn [type].
  rewrite error_block_bytes.
  destruct (Py.utf8_valid b); cbn -[Py.encode error_head].
  - split; [reflexivity|]. split; [auto|discriminate].
  - split; [reflexivity|]. split; [discriminate|auto].
Qed.

Lemma error_frame_reply_witness :
  exists s1,
    down_task run_start = Running
    /\ step run_start (WsMsg (mkMsg ERROR (Py.Bytes [x6e; x6f]) Py.NoneV))
       = Some s1
    /\ writer_closed s1 = true
    /\ written s1 = [Py.Bytes (Py.encode error_head ++ [x6e; x6f])]
    /\ down_task s1 = Finished None.
Proof.
  eexists. split; [reflexivity|]. split; [reflexivity|].
  destruct (error_frame_reply
              run_start [x6e; x6f] Py.NoneV _ eq_refl eq_refl)
    as (Hc & Hv & _).
  split; [exact Hc|]. exact (Hv eq_refl).
Defined.

End LocalMore.

(** * Further properties: the command [run] *)

Section RunFacts.

Import Run.

Lemma print_record_loop_actions rec :
  forallb is_loop_action (print_record rec) = true.
Proof.
  unfold print_record.
  destruct (String.eqb (fst rec) "stdout"); [reflexivity|].
  destruct (String.eqb (fst rec) "stderr"); reflexivity.
Qed.

Lemma shown_loop_actions recs :
  forallb is_loop_action (List.flat_map print_record recs) = true.
Proof.
  induction recs as [|rec recs IH]; [reflexivity|].
  cbn. rewrite forallb_app, print_record_loop_actions, IH. reflexivity.
Qed.

Lemma exec_loop_loop_actions execs inputs code mode :
  forallb is_loop_action (fst (exec_loop execs inputs code mode)) = true.
Proof.
  revert inputs code. induction execs as [|[e|r] execs IH];
    intros inputs code; [reflexivity|reflexivity|].
  cbn [exec_loop].
  destruct (String.eqb (status r) "finished").
  - cbn. rewrite forallb_app, shown_loop_actions. reflexivity.
  - destruct (String.eqb (status r) "waiting-input").
    + destruct inputs as [|line inputs].
      * cbn. rewrite !forallb_app, shown_loop_actions. cbn.
        unfold ask. destruct (is_password r); reflexivity.
      * specialize (IH inputs (Some line)).
        destruct (exec_loop execs inputs (Some line) mode) as [more o].
        cbn in *. rewrite !forallb_app, shown_loop_actions. cbn.
        rewrite IH. unfold ask. destruct (is_password r); reflexivity.
    + specialize (IH inputs code).
      destruct (exec_loop execs inputs code mode) as [more o].
      cbn in *. rewrite !forallb_app, shown_loop_actions, IH. reflexivity.
Qed.

(** [exec_loop] stops at the first result whose status is [finished]:
    what the kernel would answer to later calls is never asked for. *)
Theorem exec_loop_stops_at_finished pre fin post inputs code mode :
  forallb not_finished pre = true ->
  status fin = "finished"%string ->
  exec_loop (pre ++ inr fin :: post) inputs code mode
  = exec_loop (pre ++ [inr fin]) inputs code mode.
Proof.
  intros Hpre Hfin. revert inputs code Hpre.
  induction pre as [|[e|r] pre IH]; intros inputs code Hpre.
  - cbn. rewrite Hfin. reflexivity.
  - discriminate.
  - cbn in Hpre. apply andb_true_iff in Hpre as [Hr Hpre].
    apply negb_true_iff in Hr. cbn [app exec_loop]. rewrite Hr.
    destruct (String.eqb (status r) "waiting-input").
    + destruct inputs as [|line inputs]; [reflexivity|].
      rewrite (IH inputs (Some line) Hpre). reflexivity.
    + rewrite (IH inputs code Hpre). reflexivity.
Qed.

Lemma exec_loop_stops_at_finished_witness :
  exec_loop
    [inr (mkResult [("stdout"%string, "1"%string)] "continued" false);
     inr (mkResult [("stdout"%string, "2"%string)] "finished" false);
     inl Py.KeyboardInterrupt]
    [] (Some "print(1)"%string) "query"
  = ([Execute (Some "print(1)"%string) "query"; Stdout "1"; Flush;
      Execute (Some "print(1)"%string) "query"; Stdout "2"; Flush],
     Returned).
Proof.
  rewrite (exec_loop_stops_at_finished
             [inr (mkResult [("stdout"%string, "1"%string)] "continued" false)]
             (mkResult [("stdout"%string, "2"%string)] "finished" false)
             [inl Py.KeyboardInterrupt]); reflexivity.
Defined.



Lemma filter_loop_actions (p : action -> bool) tr :
  (forall act, is_loop_action act = true -> p act = false) ->
  forallb is_loop_action tr = true ->
  List.filter p tr = [].
Proof.
  intros Hp. induction tr as [|act tr IH]; [reflexivity|].
  cbn. intros H. apply andb_true_iff in H as [Ha Htr].
  rewrite (Hp _ Ha). exact (IH Htr).
Qed.

Lemma filter_verbose (p : action -> bool) a act :
  p act = false -> List.filter p (verbose a act) = [].
Proof.
  intros Hp. unfold verbose. destruct (quiet a); [reflexivity|].
  cbn. rewrite Hp. reflexivity.
Qed.

Lemma filter_exec_loop (p : action -> bool) execs inputs code mode :
  (forall act, is_loop_action act = true -> p act = false) ->
  List.filter p (fst (exec_loop execs inputs code mode)) = [].
Proof.
  intros Hp. apply (filter_loop_actions p _ Hp).
  apply exec_loop_loop_actions.
Qed.

Ltac filter_norm :=
  repeat first
    [rewrite List.filter_app
    |rewrite filter_verbose by reflexivity
    |progress cbn [List.filter app fst is_destroy is_detail is_execute
                     is_upload orb]].

(** The [try] block of [run] never destroys the kernel. *)
Lemma run_try_no_destroy a w :
  List.filter is_destroy (fst (run_try a w)) = [].
Proof.
  unfold run_try. destruct (files a) as [|f fs].
  - destruct (negb (truthy (code a))); [reflexivity|].
    apply filter_exec_loop. intros [] H; try discriminate; reflexivity.
  - destruct (truthy (code a)); [reflexivity|].
    destruct (uploaded w) as [e|[[st rs] tx]].
    + filter_norm. reflexivity.
    + destruct (negb (st / 100 =? 2)).
      * filter_norm. reflexivity.
      * pose proof (filter_exec_loop is_destroy (executions w) (stdin w)
                      None "batch") as Hl.
        destruct (exec_loop (executions w) (stdin w) None "batch")
          as [tr o].
        cbn [fst] in *. filter_norm.
        apply Hl. intros [] H; try discriminate; reflexivity.
Qed.

(** A kernel created for the occasion is destroyed exactly once when
    [run] is over, whether the code ran, was refused or failed; a kernel
    that the caller named by its token is never destroyed. *)
Theorem temporary_kernel_destroyed a w kernel_id :
  created w = inr kernel_id ->
  snd (run a w) <> Pending ->
  List.filter is_destroy (fst (run a w))
  = if truthy (client_token a) then [] else [Destroy].
Proof.
  intros Hc Hp. unfold run in *. rewrite Hc in *.
  pose proof (run_try_no_destroy a w) as Hb.
  destruct (run_try a w) as [body o]. cbn in Hb.
  unfold run_finally in *.
  destruct o; [| |cbn in Hp; contradiction];
    destruct (truthy (client_token a)); cbn [negb] in *;
    try destruct (destroyed w); filter_norm; rewrite ?Hb; filter_norm;
    reflexivity.
Qed.

Lemma temporary_kernel_destroyed_witness :
  snd (run (mkArgs "python" [] None (Some "1/0"%string) true)
           (mkWorld "t0k3n" (inr "k1"%string)
                    (inl Py.BackendClientError)
                    [inl (Py.OtherException "ZeroDivisionError")]
                    [] None))
  <> Pending
  /\ List.filter is_destroy
       (fst (run (mkArgs "python" [] None (Some "1/0"%string) true)
                 (mkWorld "t0k3n" (inr "k1"%string)
                          (inl Py.BackendClientError)
                          [inl (Py.OtherException "ZeroDivisionError")]
                          [] None)))
     = [Destroy].
Proof.
  split; [discriminate|].
  apply (temporary_kernel_destroyed
           (mkArgs "python" [] None (Some "1/0"%string) true)
           (mkWorld "t0k3n" (inr "k1"%string)
                    (inl Py.BackendClientError)
                    [inl (Py.OtherException "ZeroDivisionError")]
                    [] None)
           "k1"); [reflexivity|discriminate].
Defined.

(** Files together with a code snippet, or neither of them: [run]
    uploads nothing and executes nothing. *)
Theorem run_rejects_ambiguous_arguments a w :
  (files a <> [] /\ truthy (code a) = true)
  \/ (files a = [] /\ truthy (code a) = false) ->
  List.filter (fun act => is_execute act || is_upload act) (fst (run a w))
  = [].
Proof.
  intros H. unfold run.
  assert (exists msg, run_try a w = ([Stderr msg], Returned)) as [msg Ht].
  { unfold run_try. destruct H as [[Hf Hc]|[Hf Hc]].
    - destruct (files a); [contradiction|]. rewrite Hc.
      eexists. reflexivity.
    - rewrite Hf, Hc. eexists. reflexivity. }
  rewrite Ht. destruct (created w) as [e|kid].
  - filter_norm. reflexivity.
  - unfold run_finally.
    destruct (negb (truthy (client_token a))); [destruct (destroyed w)|];
      filter_norm; reflexivity.
Qed.

Lemma run_rejects_ambiguous_arguments_witness :
  List.filter (fun act => is_execute act || is_upload act)
    (fst (run (mkArgs "python" ["a.py"%string] None
                      (Some "print(1)"%string) false)
              (mkWorld "t0k3n" (inr "k1"%string)
                       (inr (200, "OK", ""))%string
                       [inr (mkResult [] "finished" false)] [] None)))
  = [].
Proof.
  apply (run_rejects_ambiguous_arguments
           (mkArgs "python" ["a.py"%string] None
                   (Some "print(1)"%string) false)).
  left. split; [discriminate|reflexivity].
Defined.

(** When the upload is answered with a status outside 200..299, no code
    is executed, and the failure is reported even in quiet mode. *)
Theorem upload_failure_stops_run a w kernel_id st rs tx :
  created w = inr kernel_id ->
  files a <> [] -> truthy (code a) = false ->
  uploaded w = inr (st, rs, tx) ->
  ~ (200 <= st <= 299) ->
  List.filter is_execute (fst (run a w)) = []
  /\ In (PrintFail "Uploading source files failed!") (fst (run a w)).
Proof.
  intros Hc Hf Hcode Hu Hst. unfold run. rewrite Hc.
  assert (negb (st / 100 =? 2) = true) as Hdiv.
  { apply negb_true_iff. apply Z.eqb_neq. intros Hq.
    apply Hst. Z.div_mod_to_equations. lia. }
  unfold run_try. destruct (files a) as [|f fs]; [contradiction|].
  rewrite Hcode, Hu, Hdiv. unfold run_finally.
  destruct (negb (truthy (client_token a))); [destruct (destroyed w)|];
    cbn [fst]; (split;
      [filter_norm; reflexivity
      |rewrite !List.in_app_iff; cbn; tauto]).
Qed.

Lemma upload_failure_stops_run_witness :
  ~ (200 <= 413 <= 299)
  /\ List.filter is_execute
       (fst (run (mkArgs "python" ["a.py"%string] None None true)
                 (mkWorld "t0k3n" (inr "k1"%string)
                          (inr (413, "Too Large", "no"))%string
                          [inr (mkResult [] "finished" false)] [] None)))
     = []
  /\ In (PrintFail "Uploading source files failed!")
        (fst (run (mkArgs "python" ["a.py"%string] None None true)
                  (mkWorld "t0k3n" (inr "k1"%string)
                           (inr (413, "Too Large", "no"))%string
                           [inr (mkResult [] "finished" false)] [] None))).
Proof.
  split; [lia|].
  apply (upload_failure_stops_run
           (mkArgs "python" ["a.py"%string] None None true)
           (mkWorld "t0k3n" (inr "k1"%string)
                    (inr (413, "Too Large", "no"))%string
                    [inr (mkResult [] "finished" false)] [] None)
           "k1" 413 "Too Large" "no");
    [reflexivity|discriminate|reflexivity|reflexivity|lia].
Defined.

(** Whatever is raised while uploading or executing stays inside [run]:
    an exception leaves [run] only if it comes from creating the kernel
    or from destroying the temporary one. *)
Theorem run_contains_failures a w e :
  snd (run a w) = Raised e ->
  created w = inl e
  \/ (truthy (client_token a) = false /\ destroyed w = Some e).
Proof.
  unfold run. destruct (created w) as [e0|kid].
  - cbn. intros H. injection H as <-. left. reflexivity.
  - destruct (run_try a w) as [body o]. unfold run_finally.
    destruct o; try discriminate;
      destruct (truthy (client_token a)); cbn [negb];
      try discriminate;
      destruct (destroyed w); cbn; intros H; try discriminate;
      injection H as <-; right; split; reflexivity.
Qed.

Lemma run_contains_failures_witness :
  snd (run (mkArgs "python" [] None (Some "1"%string) false)
           (mkWorld "t0k3n" (inr "k1"%string) (inl Py.BackendClientError)
                    [inl Py.KeyboardInterrupt] []
                    (Some Py.BackendClientError)))
  = Raised Py.BackendClientError
  /\ (inr "k1"%string = inl Py.BackendClientError
      \/ (truthy None = false
          /\ Some Py.BackendClientError = Some Py.BackendClientError)).
Proof.
  split; [reflexivity|].
  apply (run_contains_failures
           (mkArgs "python" [] None (Some "1"%string) false)
           (mkWorld "t0k3n" (inr "k1"%string) (inl Py.BackendClientError)
                    [inl Py.KeyboardInterrupt] []
                    (Some Py.BackendClientError))
           Py.BackendClientError).
  reflexivity.
Defined.

(** In quiet mode [run] prints none of its progress messages. *)
Theorem quiet_hides_details a w :
  quiet a = true ->
  List.filter is_detail (fst (run a w)) = [].
Proof.
  intros Hq.
  assert (forall act, verbose a act = []) as Hv
    by (intros act; unfold verbose; rewrite Hq; reflexivity).
  assert (List.filter is_detail (fst (run_try a w)) = []) as Hb.
  { unfold run_try. rewrite !Hv. destruct (files a) as [|f fs].
    - destruct (negb (truthy (code a))); [reflexivity|].
      apply filter_exec_loop. intros [] H; try discriminate; reflexivity.
    - destruct (truthy (code a)); [reflexivity|].
      destruct (uploaded w) as [e|[[st rs] tx]]; [reflexivity|].
      destruct (negb (st / 100 =? 2)); [reflexivity|].
      pose proof (filter_exec_loop is_detail (executions w) (stdin w)
                    None "batch") as Hl.
      destruct (exec_loop (executions w) (stdin w) None "batch")
        as [tr o].
      cbn in *. apply Hl. intros [] H; try discriminate; reflexivity. }
  unfold run. rewrite !Hv.
  destruct (created w) as [e|kid]; [reflexivity|].
  destruct (run_try a w) as [body o]. cbn in Hb.
  unfold run_finally. rewrite !Hv.
  destruct o;
    try (destruct (negb (truthy (client_token a)));
         [destruct (destroyed w)|]);
    filter_norm; rewrite ?Hb; filter_norm; reflexivity.
Qed.

Lemma quiet_hides_details_witness :
  List.filter is_detail
    (fst (run (mkArgs "python" ["a.py"%string] None None true)
              (mkWorld "t0k3n" (inr "k1"%string)
                       (inr (200, "OK", ""))%string
                       [inr (mkResult [] "finished" false)] [] None)))
  = [].
Proof.
  apply (quiet_hides_details
           (mkArgs "python" ["a.py"%string] None None true)).
  reflexivity.
Defined.

End RunFacts.
